(** * The Analytics Engine and the Reporting Engine

    A shallow embedding of the two HTTP services of the repository,
    [services/analytics-engine/src/main.cpp] and
    [services/reporting-engine/src/main.cpp]: the canned responses, the
    request dispatch of each service and the process around it (socket
    setup, accept loop, signal handler), followed by the properties the
    specification states about them.

    A [std::string] is a [string] of bytes.  Everything the processes get
    from outside (system call results, bytes read from a socket, signals,
    the wall clock) arrives as an explicit [event]. *)

From Stdlib Require Import String Ascii List ZArith Lia Bool DecimalString.
Import ListNotations.

Local Open Scope string_scope.

(** ** Text: the pieces of the C++ library the services use *)

Module Text.

Definition NUL : ascii := "000"%char.
Definition LF : ascii := "010"%char.
Definition CR : ascii := "013"%char.
Definition DQUOTE : ascii := "034"%char.
Definition SQUOTE : ascii := "039"%char.

(** The two bytes a C++ literal writes as backslash-r backslash-n. *)
Definition CRLF : string := String CR (String LF EmptyString).

Fixpoint map_chars (f : ascii -> ascii) (s : string) : string :=
  match s with
  | EmptyString => EmptyString
  | String c r => String (f c) (map_chars f r)
  end.

(** The fixtures of the source are full of double quotes.  They are
    written here with an apostrophe in place of each double quote (no
    fixture has an apostrophe of its own) and [q] puts the double quotes
    back. *)
Definition q (s : string) : string :=
  map_chars (fun c => if Ascii.eqb c SQUOTE then DQUOTE else c) s.

Fixpoint join (sep : string) (ls : list string) : string :=
  match ls with
  | [] => EmptyString
  | [l] => l
  | l :: more => l ++ sep ++ join sep more
  end.

(** A raw string literal of the source, given line by line: the lines are
    separated by a newline, with none after the last one. *)
Definition raw (ls : list string) : string :=
  q (join (String LF EmptyString) ls).

(** [operator<<] for an unsigned integer: its decimal digits. *)
Definition to_string (n : nat) : string :=
  NilZero.string_of_uint (Nat.to_uint n).

(** [std::isspace] in the classic locale: space, and tab to carriage
    return (9 to 13). *)
Definition isspace (c : ascii) : bool :=
  let n := nat_of_ascii c in
  (n =? 32)%nat || ((9 <=? n)%nat && (n <=? 13)%nat).

(** *** [std::istringstream] and [operator>>] for [std::string] *)

Record istringstream := { pending : string; failbit : bool }.

Definition istringstream_of (s : string) : istringstream :=
  {| pending := s; failbit := false |}.

Fixpoint skipws (s : string) : string :=
  match s with
  | EmptyString => EmptyString
  | String c r => if isspace c then skipws r else s
  end.

(** The characters up to the next white space (which stays in the
    stream) or the end of the stream. *)
Fixpoint read_word (s : string) : string * string :=
  match s with
  | EmptyString => (EmptyString, EmptyString)
  | String c r =>
      if isspace c then (EmptyString, s)
      else let (w, rest) := read_word r in (String c w, rest)
  end.

(** [stream >> var]: on a failed stream, or when only white space is left,
    [var] keeps its value and the stream is failed; otherwise leading
    white space is skipped and [var] becomes the next word. *)
Definition extract (var : string) (stream : istringstream)
  : string * istringstream :=
  if failbit stream then (var, stream)
  else match skipws (pending stream) with
       | EmptyString => (var, {| pending := EmptyString; failbit := true |})
       | String c r =>
           let (w, rest) := read_word (String c r) in
           (w, {| pending := rest; failbit := false |})
       end.

(** *** [std::string::find] *)

Fixpoint starts_with (pat s : string) : bool :=
  match pat, s with
  | EmptyString, _ => true
  | String _ _, EmptyString => false
  | String a pat', String b s' => Ascii.eqb a b && starts_with pat' s'
  end.

(** The position of the first occurrence of [pat], [None] for [npos]. *)
Fixpoint find (pat s : string) : option nat :=
  if starts_with pat s then Some 0%nat
  else match s with
       | EmptyString => None
       | String _ r => option_map S (find pat r)
       end.

Definition found (pat s : string) : bool :=
  match find pat s with Some _ => true | None => false end.

(** *** Character buffers *)

Fixpoint zeros (n : nat) : string :=
  match n with
  | O => EmptyString
  | S m => String NUL (zeros m)
  end.

(** [std::string(const char* )]: the bytes before the first NUL. *)
Fixpoint c_str (buffer : string) : string :=
  match buffer with
  | EmptyString => EmptyString
  | String c r => if Ascii.eqb c NUL then EmptyString else String c (c_str r)
  end.

(** [char buffer[size] = {0}; read(fd, buffer, size - 1)] when the call
    returns [ret] and the kernel hands over [data]: the first [ret] bytes
    of [data] (never more than [size - 1]) are stored at the start of the
    buffer, the rest stays zero.  A call that returns zero or less stores
    nothing. *)
Definition read_into (size : nat) (ret : Z) (data : string) : string :=
  if (0 <? ret)%Z
  then let got := substring 0 (Nat.min (Z.to_nat ret) (size - 1)) data in
       got ++ zeros (size - String.length got)
  else zeros size.

(** *** What a client sees of a response *)

(** The text before the first CR LF. *)
Definition status_line (response : string) : string :=
  match find CRLF response with
  | Some n => substring 0 n response
  | None => response
  end.

(** The text after the first blank line. *)
Definition body_of (response : string) : string :=
  match find (CRLF ++ CRLF) response with
  | Some n => substring (n + 4) (String.length response - (n + 4)) response
  | None => EmptyString
  end.

End Text.

Import Text.

(** ** The environment *)

Inductive signal := SIGINT | SIGTERM.

(** What can happen to a process.  [Sys ret data]: the system call the main
    thread is blocked in returns [ret]; for [read], [data] holds the bytes
    handed over.  [Client fd ret data]: the [read] of the thread that serves
    client socket [fd] returns. *)
Inductive happening :=
| Signal (sig : signal)
| Sys (ret : Z) (data : string)
| Client (fd : Z) (ret : Z) (data : string).

(** Every event happens at some time: [clock] is what [ctime] of the current
    time returns at that moment. *)
Record event := { clock : string; what : happening }.

(** A successful [read] that hands over all of [data]. *)
Definition received (data : string) : happening :=
  Sys (Z.of_nat (String.length data)) data.

Definition client_received (fd : Z) (data : string) : happening :=
  Client fd (Z.of_nat (String.length data)) data.

(** [int port = 8080], and how [operator<<] prints it. *)
Definition port : Z := 8080%Z.

Definition port_text : string := to_string (Z.to_nat port).

(** ** The Analytics Engine *)

Module Analytics.

(** [getCurrentTimestamp], with [dt] the text [ctime] returns for the
    current time: a newline at its end is removed. *)
Fixpoint pop_newline (timestamp : string) : string :=
  match timestamp with
  | EmptyString => EmptyString
  | String c EmptyString =>
      if Ascii.eqb c LF then EmptyString else timestamp
  | String c r => String c (pop_newline r)
  end.

Definition getCurrentTimestamp (dt : string) : string := pop_newline dt.

(** The JSON documents, with the place of the timestamp left open. *)

Definition health_json (timestamp : string) : string :=
  raw [ "{";
        "  'status': 'healthy',";
        "  'service': 'Analytics Engine',";
        "  'version': '1.0.0',";
        "  'timestamp': '" ]
  ++ timestamp ++
  raw [ "'";
        "}" ].

Definition root_json : string :=
  raw [ "{";
        "  'service': 'Finance Analytics Engine',";
        "  'version': '1.0.0',";
        "  'description': 'High-performance C++ analytics engine for financial calculations',";
        "  'endpoints': {";
        "    'health': 'GET /health',";
        "    'spending_analysis': 'GET /spending-analysis',";
        "    'trends': 'GET /trends',";
        "    'predictions': 'GET /predictions'";
        "  },";
        "  'capabilities': [";
        "    'Real-time expense analysis',";
        "    'Trend detection',";
        "    'Statistical calculations',";
        "    'Predictive modeling'";
        "  ]";
        "}" ].

Definition spending_json (timestamp : string) : string :=
  raw [ "{";
        "  'analysis': {";
        "    'total_expenses': 2847.32,";
        "    'average_daily_spending': 94.91,";
        "    'spending_trend': 'increasing',";
        "    'top_categories': [";
        "      {'category': 'Food & Dining', 'amount': 856.23, 'percentage': 30.1},";
        "      {'category': 'Transportation', 'amount': 445.67, 'percentage': 15.6},";
        "      {'category': 'Shopping', 'amount': 398.12, 'percentage': 14.0}";
        "    ],";
        "    'insights': [";
        "      'Spending increased by 12% compared to last month',";
        "      'Food expenses are above average',";
        "      'Transportation costs are stable'";
        "    ]";
        "  },";
        "  'generated_at': '" ]
  ++ timestamp ++
  raw [ "',";
        "  'engine': 'Analytics Engine v1.0'";
        "}" ].

Definition trends_json (timestamp : string) : string :=
  raw [ "{";
        "  'trends': {";
        "    'monthly_trend': {";
        "      'direction': 'upward',";
        "      'percentage_change': 8.5,";
        "      'confidence': 0.87";
        "    },";
        "    'category_trends': [";
        "      {'category': 'Food & Dining', 'trend': 'increasing', 'change': 15.2},";
        "      {'category': 'Transportation', 'trend': 'stable', 'change': -2.1},";
        "      {'category': 'Entertainment', 'trend': 'decreasing', 'change': -8.7}";
        "    ],";
        "    'seasonal_patterns': {";
        "      'peak_months': ['December', 'January'],";
        "      'low_months': ['February', 'March']";
        "    }";
        "  },";
        "  'analysis_period': 'last_12_months',";
        "  'generated_at': '" ]
  ++ timestamp ++
  raw [ "'";
        "}" ].

Definition predictions_json (timestamp : string) : string :=
  raw [ "{";
        "  'predictions': {";
        "    'next_month_spending': {";
        "      'estimated_total': 3150.50,";
        "      'confidence_interval': {";
        "        'lower': 2890.00,";
        "        'upper': 3410.00";
        "      },";
        "      'confidence_level': 0.85";
        "    },";
        "    'budget_alerts': [";
        "      {";
        "        'category': 'Food & Dining',";
        "        'risk_level': 'high',";
        "        'predicted_overspend': 156.78";
        "      }";
        "    ],";
        "    'recommendations': [";
        "      'Consider reducing dining out expenses',";
        "      'Transportation costs are well managed',";
        "      'Set a stricter budget for shopping'";
        "    ]";
        "  },";
        "  'model_version': '1.0',";
        "  'generated_at': '" ]
  ++ timestamp ++
  raw [ "'";
        "}" ].

Definition not_found_json : string :=
  raw [ "{";
        "  'error': 'Endpoint not found',";
        "  'available_endpoints': ['/health', '/', '/spending-analysis', '/trends', '/predictions']";
        "}" ].

(** The handlers: each builds its document and writes the response into
    a string stream. *)

Definition handleHealthCheck (dt : string) : string :=
  let response := health_json (getCurrentTimestamp dt) in
  "HTTP/1.1 200 OK" ++ CRLF
  ++ "Content-Type: application/json" ++ CRLF
  ++ "Content-Length: " ++ to_string (String.length response) ++ CRLF
  ++ "Access-Control-Allow-Origin: *" ++ CRLF
  ++ CRLF
  ++ response.

Definition handleRootRequest : string :=
  let response := root_json in
  "HTTP/1.1 200 OK" ++ CRLF
  ++ "Content-Type: application/json" ++ CRLF
  ++ "Content-Length: " ++ to_string (String.length response) ++ CRLF
  ++ "Access-Control-Allow-Origin: *" ++ CRLF
  ++ CRLF
  ++ response.

Definition handleSpendingAnalysis (dt : string) : string :=
  let response := spending_json (getCurrentTimestamp dt) in
  "HTTP/1.1 200 OK" ++ CRLF
  ++ "Content-Type: application/json" ++ CRLF
  ++ "Content-Length: " ++ to_string (String.length response) ++ CRLF
  ++ "Access-Control-Allow-Origin: *" ++ CRLF
  ++ CRLF
  ++ response.

Definition handleTrends (dt : string) : string :=
  let response := trends_json (getCurrentTimestamp dt) in
  "HTTP/1.1 200 OK" ++ CRLF
  ++ "Content-Type: application/json" ++ CRLF
  ++ "Content-Length: " ++ to_string (String.length response) ++ CRLF
  ++ "Access-Control-Allow-Origin: *" ++ CRLF
  ++ CRLF
  ++ response.

Definition handlePredictions (dt : string) : string :=
  let response := predictions_json (getCurrentTimestamp dt) in
  "HTTP/1.1 200 OK" ++ CRLF
  ++ "Content-Type: application/json" ++ CRLF
  ++ "Content-Length: " ++ to_string (String.length response) ++ CRLF
  ++ "Access-Control-Allow-Origin: *" ++ CRLF
  ++ CRLF
  ++ response.

Definition handle404 : string :=
  let response := not_found_json in
  "HTTP/1.1 404 Not Found" ++ CRLF
  ++ "Content-Type: application/json" ++ CRLF
  ++ "Content-Length: " ++ to_string (String.length response) ++ CRLF
  ++ "Access-Control-Allow-Origin: *" ++ CRLF
  ++ CRLF
  ++ response.

(** The route chain of [handleClient]. *)
Definition route (dt path : string) : string :=
  if (path =? "/health")%string then handleHealthCheck dt
  else if (path =? "/")%string then handleRootRequest
  else if (path =? "/spending-analysis")%string then handleSpendingAnalysis dt
  else if (path =? "/trends")%string then handleTrends dt
  else if (path =? "/predictions")%string then handlePredictions dt
  else handle404.

Definition buffer_size : nat := 4096.

(** [std::string request(buffer, bytes_read)] *)
Definition request_of (bytes_read : Z) (data : string) : string :=
  substring 0 (Z.to_nat bytes_read) (read_into buffer_size bytes_read data).

(** [request_stream >> method >> path >> version], the three variables
    being empty strings before. *)
Definition parse (request : string) : string * string * string :=
  let (method, s1) := extract EmptyString (istringstream_of request) in
  let (path, s2) := extract EmptyString s1 in
  let (version, _) := extract EmptyString s2 in
  (method, path, version).

(** What one run of [handleClient] does besides closing the socket:
    the line it prints and the response it sends, if any. *)
Record handled := { printed : list string; written : option string }.

Definition handleClient (dt : string) (bytes_read : Z) (data : string)
  : handled :=
  if (bytes_read <=? 0)%Z then {| printed := []; written := None |}
  else
    let request := request_of bytes_read data in
    let '(method, path, version) := parse request in
    {| printed := ["Request: " ++ method ++ " " ++ path];
       written := Some (route dt path) |}.

(** *** The process *)

Inductive pc :=
| AtSocket | AtSetsockopt | AtBind | AtListen | AtAccept
| Exited (status : Z).

(** [threads]: the client sockets whose detached thread is blocked in
    [read]; [sent] and [closed]: what was sent on and which descriptors
    were closed, oldest first. *)
Record process := {
  running : bool;
  server_fd : Z;
  at_pc : pc;
  threads : list Z;
  cout : list string;
  cerr : list string;
  sent : list (Z * string);
  closed : list Z
}.

Definition goto (l : pc) (p : process) : process :=
  {| running := running p; server_fd := server_fd p; at_pc := l;
     threads := threads p; cout := cout p; cerr := cerr p;
     sent := sent p; closed := closed p |}.

Definition print (ls : list string) (p : process) : process :=
  {| running := running p; server_fd := server_fd p; at_pc := at_pc p;
     threads := threads p; cout := (cout p ++ ls)%list; cerr := cerr p;
     sent := sent p; closed := closed p |}.

Definition complain (l : string) (p : process) : process :=
  {| running := running p; server_fd := server_fd p; at_pc := at_pc p;
     threads := threads p; cout := cout p; cerr := (cerr p ++ [l])%list;
     sent := sent p; closed := closed p |}.

Definition close (fd : Z) (p : process) : process :=
  {| running := running p; server_fd := server_fd p; at_pc := at_pc p;
     threads := threads p; cout := cout p; cerr := cerr p;
     sent := sent p; closed := (closed p ++ [fd])%list |}.

(** [send], recorded as the call the thread makes; the call is taken to
    return. *)
Definition send (fd : Z) (response : option string) (p : process)
  : process :=
  match response with
  | None => p
  | Some r =>
      {| running := running p; server_fd := server_fd p; at_pc := at_pc p;
         threads := threads p; cout := cout p; cerr := cerr p;
         sent := (sent p ++ [(fd, r)])%list; closed := closed p |}
  end.

Definition set_server_fd (fd : Z) (p : process) : process :=
  {| running := running p; server_fd := fd; at_pc := at_pc p;
     threads := threads p; cout := cout p; cerr := cerr p;
     sent := sent p; closed := closed p |}.

Definition set_running (b : bool) (p : process) : process :=
  {| running := b; server_fd := server_fd p; at_pc := at_pc p;
     threads := threads p; cout := cout p; cerr := cerr p;
     sent := sent p; closed := closed p |}.

Definition set_threads (ts : list Z) (p : process) : process :=
  {| running := running p; server_fd := server_fd p; at_pc := at_pc p;
     threads := ts; cout := cout p; cerr := cerr p;
     sent := sent p; closed := closed p |}.

Definition signalHandler (p : process) : process :=
  let p := print [String LF "Shutting down Analytics Engine..."] p in
  let p := set_running false p in
  let p := if (0 <? server_fd p)%Z then close (server_fd p) p else p in
  goto (Exited 0) p.

Definition banner : list string :=
  [ "🚀 Analytics Engine listening on port " ++ port_text;
    "📊 Ready to process financial analytics requests";
    "🔗 Available endpoints:";
    "   - GET /health";
    "   - GET /spending-analysis";
    "   - GET /trends";
    "   - GET /predictions" ].

(** The test of [while (running)]; falling out of the loop is
    [return 0]. *)
Definition loop (p : process) : process :=
  if running p then goto AtAccept p else goto (Exited 0) p.

Definition fail (l : string) (p : process) : process :=
  goto (Exited 1) (complain l p).

(** The main thread, when the call it waits in returns [ret]. *)
Definition main_step (ret : Z) (p : process) : process :=
  match at_pc p with
  | AtSocket =>
      let p := set_server_fd ret p in
      if (server_fd p =? 0)%Z then fail "Socket creation failed" p
      else goto AtSetsockopt p
  | AtSetsockopt =>
      if negb (ret =? 0)%Z then fail "Setsockopt failed" p
      else goto AtBind p
  | AtBind =>
      if (ret <? 0)%Z then fail ("Bind failed on port " ++ port_text) p
      else goto AtListen p
  | AtListen =>
      if (ret <? 0)%Z then fail "Listen failed" p
      else loop (print banner p)
  | AtAccept =>
      let client_socket := ret in
      if (client_socket <? 0)%Z
      then loop (if running p then complain "Accept failed" p else p)
      else loop (set_threads (threads p ++ [client_socket])%list p)
  | Exited _ => p
  end.

Fixpoint remove_first (fd : Z) (ts : list Z) : list Z :=
  match ts with
  | [] => []
  | t :: more => if (t =? fd)%Z then more else t :: remove_first fd more
  end.

(** The thread of client socket [fd], when its [read] returns.  The
    handler is one step, from the return of [read] to [close], with the
    clock text of its own event: handlers that overlap in time, and what
    they share (the buffer of [ctime], the output stream), are not
    expressed. *)
Definition client_step (dt : string) (fd ret : Z) (data : string)
    (p : process) : process :=
  if existsb (Z.eqb fd) (threads p) then
    let h := handleClient dt ret data in
    let p := set_threads (remove_first fd (threads p)) p in
    close fd (send fd (written h) (print (printed h) p))
  else p.

Definition step (p : process) (e : event) : process :=
  match at_pc p with
  | Exited _ => p
  | _ =>
      match what e with
      | Signal _ => signalHandler p
      | Sys ret _ => main_step ret p
      | Client fd ret data => client_step (clock e) fd ret data p
      end
  end.

(** [main] at its first system call, both signal handlers installed;
    the globals are [running = true] and a zero [server_fd]. *)
Definition start : process :=
  {| running := true; server_fd := 0; at_pc := AtSocket; threads := [];
     cout := []; cerr := []; sent := []; closed := [] |}.

Definition run (p : process) (es : list event) : process :=
  fold_left step es p.

Definition exit_status (p : process) : option Z :=
  match at_pc p with Exited s => Some s | _ => None end.

End Analytics.

(** ** The Reporting Engine *)

Module Reporting.

Definition health_json : string :=
  raw [ "{'status':'healthy','service':'Reporting Engine','version':'1.0.0'}" ].

Definition root_json : string :=
  raw [ "{'service':'Finance Reporting Engine','version':'1.0.0','status':'running','endpoints':{'/health':'Health check','/reports':'Generate reports'}}" ].

Definition handleHealthCheck : string :=
  let response := health_json in
  "HTTP/1.1 200 OK" ++ CRLF
  ++ "Content-Type: application/json" ++ CRLF
  ++ "Content-Length: " ++ to_string (String.length response) ++ CRLF
  ++ "Access-Control-Allow-Origin: *" ++ CRLF
  ++ CRLF
  ++ response.

Definition handleRootRequest : string :=
  let response := root_json in
  "HTTP/1.1 200 OK" ++ CRLF
  ++ "Content-Type: application/json" ++ CRLF
  ++ "Content-Length: " ++ to_string (String.length response) ++ CRLF
  ++ "Access-Control-Allow-Origin: *" ++ CRLF
  ++ CRLF
  ++ response.

(** The literal of the last branch of the dispatch in [main]. *)
Definition not_found : string :=
  "HTTP/1.1 404 Not Found" ++ CRLF ++ "Content-Length: 0" ++ CRLF ++ CRLF.

(** The dispatch in [main]. *)
Definition respond (request : string) : string :=
  if found "GET /health" request then handleHealthCheck
  else if found "GET /" request then handleRootRequest
  else not_found.

Definition buffer_size : nat := 4096.

(** [std::string request(buffer)] after the [read], whose result the
    program does not look at. *)
Definition request_of (ret : Z) (data : string) : string :=
  c_str (read_into buffer_size ret data).

(** *** The process *)

Inductive pc :=
| AtSocket | AtSetsockopt | AtBind | AtListen | AtAccept
| AtRead (client_socket : Z)
| Exited (status : Z).

Record process := {
  running : bool;
  server_fd : Z;
  at_pc : pc;
  cout : list string;
  cerr : list string;
  sent : list (Z * string);
  closed : list Z
}.

Definition goto (l : pc) (p : process) : process :=
  {| running := running p; server_fd := server_fd p; at_pc := l;
     cout := cout p; cerr := cerr p; sent := sent p; closed := closed p |}.

Definition print (l : string) (p : process) : process :=
  {| running := running p; server_fd := server_fd p; at_pc := at_pc p;
     cout := (cout p ++ [l])%list; cerr := cerr p;
     sent := sent p; closed := closed p |}.

Definition complain (l : string) (p : process) : process :=
  {| running := running p; server_fd := server_fd p; at_pc := at_pc p;
     cout := cout p; cerr := (cerr p ++ [l])%list;
     sent := sent p; closed := closed p |}.

Definition close (fd : Z) (p : process) : process :=
  {| running := running p; server_fd := server_fd p; at_pc := at_pc p;
     cout := cout p; cerr := cerr p;
     sent := sent p; closed := (closed p ++ [fd])%list |}.

(** [send], recorded as the call the program makes.  The call is taken
    to return: a [send] that raises SIGPIPE, for which the program installs
    no handler, is not among the events. *)
Definition send (fd : Z) (response : string) (p : process) : process :=
  {| running := running p; server_fd := server_fd p; at_pc := at_pc p;
     cout := cout p; cerr := cerr p;
     sent := (sent p ++ [(fd, response)])%list; closed := closed p |}.

Definition set_server_fd (fd : Z) (p : process) : process :=
  {| running := running p; server_fd := fd; at_pc := at_pc p;
     cout := cout p; cerr := cerr p; sent := sent p; closed := closed p |}.

Definition set_running (b : bool) (p : process) : process :=
  {| running := b; server_fd := server_fd p; at_pc := at_pc p;
     cout := cout p; cerr := cerr p; sent := sent p; closed := closed p |}.

Definition signalHandler (p : process) : process :=
  let p := print (String LF "Shutting down Reporting Engine...") p in
  let p := set_running false p in
  let p := if (0 <? server_fd p)%Z then close (server_fd p) p else p in
  goto (Exited 0) p.

Definition loop (p : process) : process :=
  if running p then goto AtAccept p else goto (Exited 0) p.

Definition fail (l : string) (p : process) : process :=
  goto (Exited 1) (complain l p).

(** [main], when the call it waits in returns [ret] (and, for [read],
    hands over [data]).  The result of [setsockopt] is not looked at. *)
Definition main_step (ret : Z) (data : string) (p : process) : process :=
  match at_pc p with
  | AtSocket =>
      let p := set_server_fd ret p in
      if (server_fd p =? 0)%Z then fail "Socket creation failed" p
      else goto AtSetsockopt p
  | AtSetsockopt => goto AtBind p
  | AtBind =>
      if (ret <? 0)%Z then fail ("Bind failed on port " ++ port_text) p
      else goto AtListen p
  | AtListen =>
      if (ret <? 0)%Z then fail "Listen failed" p
      else loop (print ("Reporting Engine listening on port " ++ port_text) p)
  | AtAccept =>
      let client_socket := ret in
      if (client_socket <? 0)%Z
      then loop (if running p then complain "Accept failed" p else p)
      else goto (AtRead client_socket) p
  | AtRead client_socket =>
      let request := request_of ret data in
      let response := respond request in
      loop (close client_socket (send client_socket response p))
  | Exited _ => p
  end.

(** The program starts no thread, so a [Client] event finds nobody. *)
Definition step (p : process) (e : event) : process :=
  match at_pc p with
  | Exited _ => p
  | _ =>
      match what e with
      | Signal _ => signalHandler p
      | Sys ret data => main_step ret data p
      | Client _ _ _ => p
      end
  end.

Definition start : process :=
  {| running := true; server_fd := 0; at_pc := AtSocket;
     cout := []; cerr := []; sent := []; closed := [] |}.

Definition run (p : process) (es : list event) : process :=
  fold_left step es p.

Definition exit_status (p : process) : option Z :=
  match at_pc p with Exited s => Some s | _ => None end.

End Reporting.

(** ** The vocabulary of the specification *)

Module Spec.

(** The paths the specification lists for each service. *)
Definition analytics_paths : list string :=
  [ "/health"; "/"; "/spending-analysis"; "/trends"; "/predictions" ].

Definition reporting_paths : list string := [ "/health"; "/" ].

(** The 200-status fixture of each Analytics path, with the timestamp
    the handler substitutes. *)
Definition analytics_fixture (dt path : string) : string :=
  let timestamp := Analytics.getCurrentTimestamp dt in
  if (path =? "/health")%string then Analytics.health_json timestamp
  else if (path =? "/")%string then Analytics.root_json
  else if (path =? "/spending-analysis")%string
       then Analytics.spending_json timestamp
  else if (path =? "/trends")%string then Analytics.trends_json timestamp
  else Analytics.predictions_json timestamp.

(** The complete response the specification describes: status line,
    content type, content length, CORS header, blank line, body. *)
Definition envelope (status body : string) : string :=
  status ++ CRLF
  ++ "Content-Type: application/json" ++ CRLF
  ++ "Content-Length: " ++ to_string (String.length body) ++ CRLF
  ++ "Access-Control-Allow-Origin: *" ++ CRLF
  ++ CRLF
  ++ body.

(** The short response: status line, content length, blank line, body. *)
Definition bare (status body : string) : string :=
  status ++ CRLF
  ++ "Content-Length: " ++ to_string (String.length body) ++ CRLF
  ++ CRLF
  ++ body.

Definition ok : string := "HTTP/1.1 200 OK".
Definition missing : string := "HTTP/1.1 404 Not Found".

(** The standard error object, listing [paths]. *)
Definition error_json (paths : list string) : string :=
  raw [ "{";
        "  'error': 'Endpoint not found',";
        "  'available_endpoints': ["
          ++ join ", " (map (fun p => "'" ++ p ++ "'") paths) ++ "]";
        "}" ].

(** [pat] occurs somewhere in [s]. *)
Definition occurs (pat s : string) : Prop :=
  exists before after, s = before ++ pat ++ after.

Fixpoint no_space (w : string) : bool :=
  match w with
  | EmptyString => true
  | String c r => negb (isspace c) && no_space r
  end.

(** A token of a request line: not empty, no white space. *)
Definition is_word (w : string) : bool :=
  match w with
  | EmptyString => false
  | String _ _ => no_space w
  end.

(** Where a word ends: at the end of the text or before white space. *)
Definition at_boundary (rest : string) : bool :=
  match rest with
  | EmptyString => true
  | String c _ => isspace c
  end.

Definition request_line (method path version : string) : string :=
  method ++ " " ++ path ++ " " ++ version.

(** The path of a request: the second token of its text. *)
Definition path_of (request : string) : string :=
  snd (fst (Analytics.parse request)).

Fixpoint has_char (c : ascii) (s : string) : bool :=
  match s with
  | EmptyString => false
  | String d r => Ascii.eqb c d || has_char c r
  end.

(** The most a [read] of either service hands over. *)
Definition read_limit : nat := 4095.

(** What a client that sends [data] in one piece is sent back. *)
Definition analytics_reply (dt data : string) : option string :=
  Analytics.written
    (Analytics.handleClient dt (Z.of_nat (String.length data)) data).

Definition reporting_reply (data : string) : string :=
  Reporting.respond
    (Reporting.request_of (Z.of_nat (String.length data)) data).

(** A system call on a descriptor that is not open fails. *)
Definition ebadf (fd ret : Z) : Prop := (fd < 0 -> ret < 0)%Z.

Definition sys (t : string) (ret : Z) : event :=
  {| clock := t; what := Sys ret EmptyString |}.

Definition no_signal (e : event) : bool :=
  match what e with Signal _ => false | _ => true end.

(** *** Concrete requests *)

Definition blank : string := CRLF ++ CRLF.

Definition get_nope : string := "GET /nope HTTP/1.1" ++ blank.
Definition post_nope : string := "POST /nope HTTP/1.1" ++ blank.
Definition get_health : string := "GET /health HTTP/1.1" ++ blank.
Definition post_health : string := "POST /health HTTP/1.1" ++ blank.
Definition get_root : string := "GET / HTTP/1.1" ++ blank.
Definition get_reports : string := "GET /reports HTTP/1.1" ++ blank.
Definition get_root_with_header : string :=
  "GET / HTTP/1.1" ++ CRLF ++ "Referer: GET /health" ++ blank.
Definition root_line : string := request_line "GET" "/" "HTTP/1.1".
Definition nul_then_get_health : string := String NUL "GET /health".

Definition friday : string := "Fri Oct 30 04:45:00 2026" ++ String LF EmptyString.
Definition saturday : string := "Sat Oct 31 04:45:00 2026" ++ String LF EmptyString.

(** *** Processes *)

Definition analytics_serving (p : Analytics.process) : Prop :=
  Analytics.running p = true /\ Analytics.at_pc p = Analytics.AtAccept.

Definition reporting_serving (p : Reporting.process) : Prop :=
  Reporting.running p = true
  /\ (Reporting.at_pc p = Reporting.AtAccept
      \/ exists c, Reporting.at_pc p = Reporting.AtRead c).

(** The Analytics paths whose handler calls [getCurrentTimestamp]. *)
Definition timestamped_paths : list string :=
  [ "/health"; "/spending-analysis"; "/trends"; "/predictions" ].

(** A run that brings a server up, and runs in which the [read] of the
    first connection fails. *)
Definition up (t : string) : list event :=
  [ sys t 3; sys t 0; sys t 0; sys t 0 ].

Definition accepted (t : string) : list event := (up t ++ [ sys t 4 ])%list.

Definition analytics_failed_read (t : string) : list event :=
  (accepted t ++ [ {| clock := t; what := Client 4 (-1) EmptyString |} ])%list.

Definition reporting_failed_read (t : string) : list event :=
  (accepted t ++ [ sys t (-1) ])%list.

Definition at_time (t : string) (h : happening) : event :=
  {| clock := t; what := h |}.

(** The only exit statuses are 0 and 1. *)
Definition analytics_status_ok (p : Analytics.process) : Prop :=
  match Analytics.at_pc p with
  | Analytics.Exited s => s = 0%Z \/ s = 1%Z
  | _ => True
  end.

Definition reporting_status_ok (p : Reporting.process) : Prop :=
  match Reporting.at_pc p with
  | Reporting.Exited s => s = 0%Z \/ s = 1%Z
  | _ => True
  end.

End Spec.

Import Spec.

(** ** More vocabulary: words, sessions and invariants *)

Module More.

(** Only white space. *)
Fixpoint only_space (s : string) : bool :=
  match s with
  | EmptyString => true
  | String c r => isspace c && only_space r
  end.

(** The last character of [s] is [c]. *)
Fixpoint ends_with (c : ascii) (s : string) : bool :=
  match s with
  | EmptyString => false
  | String x EmptyString => Ascii.eqb x c
  | String _ r => ends_with c r
  end.

(** One connection: the [accept] that returns [c] and the [read] that
    hands over [d], both at time [t]. *)
Definition analytics_session (conn : string * Z * string) : list event :=
  let '(t, c, d) := conn in
  [ at_time t (Sys c EmptyString); at_time t (client_received c d) ].

Definition reporting_session (conn : string * Z * string) : list event :=
  let '(t, c, d) := conn in
  [ at_time t (Sys c EmptyString); at_time t (received d) ].

(** The line the Analytics Engine prints for the request text [d]. *)
Definition analytics_log (d : string) : string :=
  let '(method, path, _) := Analytics.parse d in
  "Request: " ++ method ++ " " ++ path.

Definition analytics_answer (conn : string * Z * string) : Z * string :=
  let '(t, c, d) := conn in (c, Analytics.route t (path_of d)).

Definition reporting_answer (conn : string * Z * string) : Z * string :=
  let '(_, c, d) := conn in (c, Reporting.respond (c_str d)).

Definition conn_fd (conn : string * Z * string) : Z :=
  let '(_, c, _) := conn in c.

Definition conn_data (conn : string * Z * string) : string :=
  let '(_, _, d) := conn in d.

Definition analytics_conn_ok (conn : string * Z * string) : Prop :=
  (0 <= conn_fd conn)%Z /\ 0 < String.length (conn_data conn) <= read_limit.

Definition reporting_conn_ok (conn : string * Z * string) : Prop :=
  (0 <= conn_fd conn)%Z /\ String.length (conn_data conn) <= read_limit.

(** A process that has not come up: nothing sent, closed or printed, no
    thread. *)
Definition analytics_quiet (p : Analytics.process) : Prop :=
  Analytics.sent p = [] /\ Analytics.closed p = []
  /\ Analytics.cout p = [] /\ Analytics.threads p = [].

Definition reporting_quiet (p : Reporting.process) : Prop :=
  Reporting.sent p = [] /\ Reporting.closed p = [] /\ Reporting.cout p = [].

Definition analytics_setup_errors : list string :=
  [ "Socket creation failed"; "Setsockopt failed";
    "Bind failed on port 8080"; "Listen failed" ].

Definition reporting_setup_errors : list string :=
  [ "Socket creation failed"; "Bind failed on port 8080"; "Listen failed" ].

Definition analytics_setup_inv (p : Analytics.process) : Prop :=
  match Analytics.at_pc p with
  | Analytics.AtAccept => True
  | Analytics.Exited s =>
      s = 1%Z ->
      analytics_quiet p
      /\ exists msg, Analytics.cerr p = [msg] /\ In msg analytics_setup_errors
  | _ => analytics_quiet p /\ Analytics.cerr p = []
  end.

Definition reporting_setup_inv (p : Reporting.process) : Prop :=
  match Reporting.at_pc p with
  | Reporting.AtAccept | Reporting.AtRead _ => True
  | Reporting.Exited s =>
      s = 1%Z ->
      reporting_quiet p
      /\ exists msg, Reporting.cerr p = [msg] /\ In msg reporting_setup_errors
  | _ => reporting_quiet p /\ Reporting.cerr p = []
  end.

Definition analytics_goodbye : string :=
  String LF "Shutting down Analytics Engine...".

Definition reporting_goodbye : string :=
  String LF "Shutting down Reporting Engine...".

(** Every socket that was answered has been closed. *)
Definition analytics_answered_closed (p : Analytics.process) : Prop :=
  (forall fd r, In (fd, r) (Analytics.sent p) -> In fd (Analytics.closed p))
  /\ length (Analytics.sent p) <= length (Analytics.closed p).

Definition accept_at (t : string) (c : Z) : event :=
  at_time t (Sys c EmptyString).

End More.

Import More.

(** ** Tactics *)

(** The transition functions and the projections of the process records,
    unfolded. *)
Ltac analytics_unfold :=
  cbv beta iota zeta delta
    [Analytics.step Analytics.main_step Analytics.client_step
     Analytics.loop Analytics.fail Analytics.goto Analytics.complain
     Analytics.print Analytics.close Analytics.send
     Analytics.set_server_fd Analytics.set_threads Analytics.at_pc
     Analytics.running Analytics.server_fd Analytics.threads
     Analytics.cout Analytics.cerr Analytics.sent Analytics.closed
     Analytics.start what clock sys received client_received].

Ltac reporting_unfold :=
  cbv beta iota zeta delta
    [Reporting.step Reporting.main_step
     Reporting.loop Reporting.fail Reporting.goto Reporting.complain
     Reporting.print Reporting.close Reporting.send
     Reporting.set_server_fd Reporting.at_pc
     Reporting.running Reporting.server_fd
     Reporting.cout Reporting.cerr Reporting.sent Reporting.closed
     Reporting.start what clock sys received client_received].

(** One event of a run, with the state written out. *)
Ltac analytics_step :=
  match goal with
  | |- context [Analytics.run ?p (?e :: ?es)] =>
      change (Analytics.run p (e :: es))
        with (Analytics.run (Analytics.step p e) es);
      analytics_unfold
  end.

Ltac reporting_step :=
  match goal with
  | |- context [Reporting.run ?p (?e :: ?es)] =>
      change (Reporting.run p (e :: es))
        with (Reporting.run (Reporting.step p e) es);
      reporting_unfold
  end.

(** A setup call that failed: the process is quiet and one setup message
    is on the error stream. *)
Ltac setup_failed :=
  intros _; split; [repeat split|];
  eexists; split; [reflexivity | cbn; tauto].

(** ** Facts about strings and buffers *)

Section TextFacts.

Lemma append_assoc :
  forall a b c : string, (a ++ b) ++ c = a ++ b ++ c.
Proof.
  induction a as [|x a IH]; intros b c; simpl.
  - reflexivity.
  - now rewrite IH.
Qed.

Lemma append_nil_r : forall a : string, a ++ EmptyString = a.
Proof.
  induction a as [|x a IH]; simpl; [reflexivity | now rewrite IH].
Qed.

Lemma length_append :
  forall a b : string,
    String.length (a ++ b) = String.length a + String.length b.
Proof.
  induction a as [|x a IH]; intros b; simpl; [reflexivity | now rewrite IH].
Qed.

Lemma substring_zero : forall s : string, substring 0 0 s = EmptyString.
Proof. destruct s; reflexivity. Qed.

Lemma substring_prefix :
  forall a b : string, substring 0 (String.length a) (a ++ b) = a.
Proof.
  induction a as [|x a IH]; intros b; simpl.
  - apply substring_zero.
  - now rewrite IH.
Qed.

Lemma substring_all :
  forall a : string, substring 0 (String.length a) a = a.
Proof.
  intros a. rewrite <- (append_nil_r a) at 2. apply substring_prefix.
Qed.

Lemma substring_suffix :
  forall a b : string,
    substring (String.length a) (String.length b) (a ++ b) = b.
Proof.
  induction a as [|x a IH]; intros b; simpl.
  - apply substring_all.
  - apply IH.
Qed.

Lemma c_str_zeros : forall d k, c_str (d ++ zeros k) = c_str d.
Proof.
  induction d as [|x d IH]; intros k; cbn [c_str append].
  - destruct k; reflexivity.
  - destruct (Ascii.eqb x NUL); [reflexivity | now rewrite IH].
Qed.

Lemma c_str_no_nul : forall d, has_char NUL d = false -> c_str d = d.
Proof.
  induction d as [|x d IH]; cbn [has_char c_str]; intros H.
  - reflexivity.
  - apply orb_false_iff in H. destruct H as [Hx Hd].
    rewrite Ascii.eqb_sym, Hx. now rewrite IH.
Qed.

(** A [read] that hands over all of [data], which fits the buffer,
    leaves [data] followed by zeros. *)
Lemma read_into_all :
  forall size data,
    0 < String.length data <= size - 1 ->
    read_into size (Z.of_nat (String.length data)) data
    = data ++ zeros (size - String.length data).
Proof.
  intros size data H. unfold read_into.
  replace (0 <? Z.of_nat (String.length data))%Z with true
    by (symmetry; apply Z.ltb_lt; lia).
  rewrite Nat2Z.id, Nat.min_l by lia.
  now rewrite substring_all.
Qed.

Lemma read_into_nothing :
  forall size ret data, (ret <= 0)%Z -> read_into size ret data = zeros size.
Proof.
  intros size ret data H. unfold read_into.
  replace (0 <? ret)%Z with false by (symmetry; apply Z.ltb_ge; lia).
  reflexivity.
Qed.

Lemma c_str_only_zeros : forall n, c_str (zeros n) = EmptyString.
Proof. destruct n; reflexivity. Qed.

Lemma analytics_request_all :
  forall data,
    0 < String.length data <= read_limit ->
    Analytics.request_of (Z.of_nat (String.length data)) data = data.
Proof.
  intros data H. unfold Analytics.request_of.
  rewrite read_into_all.
  - rewrite Nat2Z.id. apply substring_prefix.
  - unfold Analytics.buffer_size, read_limit in *. lia.
Qed.

Lemma reporting_request_all :
  forall data,
    String.length data <= read_limit ->
    Reporting.request_of (Z.of_nat (String.length data)) data = c_str data.
Proof.
  intros data H. unfold Reporting.request_of.
  destruct data as [|x d].
  - rewrite read_into_nothing by (simpl; lia). apply c_str_only_zeros.
  - rewrite read_into_all.
    + apply c_str_zeros.
    + unfold Reporting.buffer_size, read_limit in *. simpl String.length in *. lia.
Qed.

Lemma reporting_request_failed :
  forall ret data,
    (ret <= 0)%Z -> Reporting.request_of ret data = EmptyString.
Proof.
  intros ret data H. unfold Reporting.request_of.
  rewrite read_into_nothing by assumption. apply c_str_only_zeros.
Qed.

End TextFacts.

(** ** Facts about [find] *)

Section FindFacts.

Lemma starts_with_append :
  forall pat after, starts_with pat (pat ++ after) = true.
Proof.
  induction pat as [|x pat IH]; intros after; cbn [starts_with append].
  - reflexivity.
  - now rewrite Ascii.eqb_refl, IH.
Qed.

Lemma starts_with_inv :
  forall pat s, starts_with pat s = true -> exists after, s = pat ++ after.
Proof.
  induction pat as [|x pat IH]; intros s H.
  - now exists s.
  - destruct s as [|y s]; cbn [starts_with] in H; [discriminate|].
    apply andb_true_iff in H. destruct H as [Hxy Hs].
    apply Ascii.eqb_eq in Hxy. subst y.
    destruct (IH s Hs) as [after ->]. now exists after.
Qed.

Lemma found_nil : forall pat, found pat EmptyString = starts_with pat EmptyString.
Proof.
  intros pat. unfold found. cbn [find].
  now destruct (starts_with pat EmptyString).
Qed.

Lemma found_cons :
  forall pat y r,
    found pat (String y r) = starts_with pat (String y r) || found pat r.
Proof.
  intros pat y r. unfold found. cbn [find].
  destruct (starts_with pat (String y r)); [reflexivity|].
  now destruct (find pat r).
Qed.

(** [find] finds [pat] exactly when [pat] occurs. *)
Lemma found_occurs :
  forall pat s, found pat s = true <-> occurs pat s.
Proof.
  intros pat s. split.
  - induction s as [|y s IH]; intros H.
    + rewrite found_nil in H. apply starts_with_inv in H.
      destruct H as [after ->]. now exists EmptyString, after.
    + rewrite found_cons in H. apply orb_true_iff in H.
      destruct H as [H|H].
      * apply starts_with_inv in H. destruct H as [after ->].
        now exists EmptyString, after.
      * destruct (IH H) as (before & after & ->).
        now exists (String y before), after.
  - intros (before & after & ->).
    induction before as [|y before IH]; cbn [append].
    + destruct (pat ++ after) as [|y r] eqn:E.
      * rewrite found_nil, <- E. apply starts_with_append.
      * rewrite found_cons, <- E, starts_with_append. reflexivity.
    + rewrite found_cons, IH. apply orb_true_r.
Qed.

Lemma not_found_occurs :
  forall pat s, found pat s = false <-> ~ occurs pat s.
Proof.
  intros pat s. rewrite <- found_occurs.
  destruct (found pat s); split; congruence.
Qed.

Lemma occurs_extend :
  forall pat s tail, occurs pat s -> occurs pat (s ++ tail).
Proof.
  intros pat s tail (before & after & ->).
  exists before, (after ++ tail). now rewrite !append_assoc.
Qed.

Lemma occurs_longer :
  forall pat more s, occurs (pat ++ more) s -> occurs pat s.
Proof.
  intros pat more s (before & after & ->).
  exists before, (more ++ after). now rewrite !append_assoc.
Qed.

(** A pattern without [c] cannot reach across a [c]. *)
Lemma starts_with_sep :
  forall pat a c t,
    has_char c pat = false ->
    starts_with pat (a ++ String c t) = starts_with pat a.
Proof.
  induction pat as [|x pat IH]; intros a c t H.
  - reflexivity.
  - cbn [has_char] in H. apply orb_false_iff in H. destruct H as [Hx Hp].
    destruct a as [|y a]; cbn [append starts_with].
    + rewrite Ascii.eqb_sym, Hx. reflexivity.
    + now rewrite IH.
Qed.

Lemma found_sep :
  forall pat a c t,
    pat <> EmptyString ->
    has_char c pat = false ->
    found pat (a ++ String c t) = found pat a || found pat t.
Proof.
  intros pat a c t Hne Hc. induction a as [|y a IH].
  - cbn [append]. rewrite found_cons, found_nil.
    change (String c t) with (EmptyString ++ String c t) at 1.
    rewrite starts_with_sep by assumption.
    destruct pat; [congruence | reflexivity].
  - cbn [append]. rewrite !found_cons, IH.
    change (String y (a ++ String c t)) with (String y a ++ String c t).
    rewrite starts_with_sep by assumption.
    now rewrite orb_assoc.
Qed.

Lemma c_str_prefix : forall d, exists tail, d = c_str d ++ tail.
Proof.
  induction d as [|x d [tail IH]]; cbn [c_str].
  - now exists EmptyString.
  - destruct (Ascii.eqb x NUL).
    + now exists (String x d).
    + exists tail. cbn [append]. now rewrite <- IH.
Qed.

Lemma c_str_append :
  forall a b,
    c_str (a ++ b) = if has_char NUL a then c_str a else a ++ c_str b.
Proof.
  induction a as [|x a IH]; intros b; cbn [append c_str has_char].
  - reflexivity.
  - rewrite (Ascii.eqb_sym NUL x).
    destruct (Ascii.eqb x NUL); cbn [orb]; [reflexivity|].
    rewrite IH. now destruct (has_char NUL a).
Qed.

Lemma not_occurs_c_str :
  forall pat d, ~ occurs pat d -> ~ occurs pat (c_str d).
Proof.
  intros pat d H Hc. apply H.
  destruct (c_str_prefix d) as [tail E]. rewrite E.
  now apply occurs_extend.
Qed.

End FindFacts.

(** ** Facts about the extraction of words *)

Section ParseFacts.

Lemma read_word_word :
  forall w rest,
    no_space w = true -> at_boundary rest = true ->
    read_word (w ++ rest) = (w, rest).
Proof.
  induction w as [|x w IH]; intros rest Hw Hr.
  - cbn [append]. destruct rest as [|c r]; cbn [read_word].
    + reflexivity.
    + cbn [at_boundary] in Hr. now rewrite Hr.
  - cbn [no_space] in Hw. apply andb_true_iff in Hw.
    destruct Hw as [Hx Hw]. apply negb_true_iff in Hx.
    cbn [append read_word]. now rewrite Hx, IH.
Qed.

Lemma skipws_word :
  forall w rest, is_word w = true -> skipws (w ++ rest) = w ++ rest.
Proof.
  intros [|x w] rest H; [discriminate|].
  cbn [is_word no_space] in H. apply andb_true_iff in H.
  destruct H as [Hx _]. apply negb_true_iff in Hx.
  cbn [append skipws]. now rewrite Hx.
Qed.

Lemma extract_word :
  forall var w rest,
    is_word w = true -> at_boundary rest = true ->
    extract var (istringstream_of (w ++ rest))
    = (w, {| pending := rest; failbit := false |}).
Proof.
  intros var w rest Hw Hr.
  unfold extract, istringstream_of. cbn [failbit pending].
  rewrite skipws_word by assumption.
  destruct w as [|x w]; [discriminate|].
  change (String x w ++ rest) with (String x (w ++ rest)).
  cbv iota beta.
  change (String x (w ++ rest)) with (String x w ++ rest).
  now rewrite read_word_word.
Qed.

Lemma extract_space_word :
  forall var c w rest,
    isspace c = true -> is_word w = true -> at_boundary rest = true ->
    extract var {| pending := String c (w ++ rest); failbit := false |}
    = (w, {| pending := rest; failbit := false |}).
Proof.
  intros var c w rest Hc Hw Hr.
  unfold extract. cbn [failbit pending skipws]. rewrite Hc.
  apply (extract_word var w rest Hw Hr).
Qed.

(** After the method, the stream holds the rest of the text. *)
Lemma parse_after_method :
  forall m c tail,
    is_word m = true -> isspace c = true ->
    Analytics.parse (m ++ String c tail)
    = let (path, s2) :=
        extract EmptyString {| pending := String c tail; failbit := false |} in
      let (version, _) := extract EmptyString s2 in
      (m, path, version).
Proof.
  intros m c tail Hm Hc. unfold Analytics.parse.
  now rewrite extract_word.
Qed.

(** The path of a request that starts with a request line. *)
Lemma path_of_request_line :
  forall m p c rest,
    is_word m = true -> is_word p = true -> isspace c = true ->
    path_of (m ++ " " ++ p ++ String c rest) = p.
Proof.
  intros m p c rest Hm Hp Hc. unfold path_of.
  change (m ++ " " ++ p ++ String c rest)
    with (m ++ String " "%char (p ++ String c rest)).
  rewrite parse_after_method by (assumption || reflexivity).
  rewrite extract_space_word by (assumption || reflexivity).
  destruct (extract EmptyString {| pending := String c rest; failbit := false |}).
  reflexivity.
Qed.

End ParseFacts.

(** ** Facts about complete responses *)

Section EnvelopeFacts.

Lemma has_char_append :
  forall c a b, has_char c (a ++ b) = has_char c a || has_char c b.
Proof.
  induction a as [|x a IH]; intros b; cbn [append has_char].
  - reflexivity.
  - now rewrite IH, orb_assoc.
Qed.

Lemma digits_no_cr :
  forall d, has_char CR (NilEmpty.string_of_uint d) = false.
Proof. induction d; cbn; auto. Qed.

Lemma to_string_no_cr : forall n, has_char CR (to_string n) = false.
Proof.
  intros n. unfold to_string, NilZero.string_of_uint.
  destruct (Nat.to_uint n); try apply digits_no_cr. reflexivity.
Qed.

(** A pattern that starts with [c] is not found inside text without [c]. *)
Lemma find_skip :
  forall c pat s t,
    has_char c s = false ->
    find (String c pat) (s ++ t)
    = option_map (Nat.add (String.length s)) (find (String c pat) t).
Proof.
  intros c pat s t. induction s as [|y s IH]; intros H.
  - cbn [append String.length]. now destruct (find (String c pat) t).
  - cbn [has_char] in H. apply orb_false_iff in H. destruct H as [Hy Hs].
    cbn [append find starts_with]. rewrite Hy. cbn [andb].
    rewrite IH by assumption.
    now destruct (find (String c pat) t).
Qed.

Lemma find_cons :
  forall pat y r,
    find pat (String y r)
    = if starts_with pat (String y r) then Some 0
      else option_map S (find pat r).
Proof. reflexivity. Qed.

Lemma starts_with_cons :
  forall a p b s,
    starts_with (String a p) (String b s) = Ascii.eqb a b && starts_with p s.
Proof. reflexivity. Qed.

Lemma find_after_crlf :
  forall rest,
    starts_with CRLF rest = false ->
    find blank (CRLF ++ rest) = option_map (Nat.add 2) (find blank rest).
Proof.
  intros rest Hr.
  change (CRLF ++ rest) with (String CR (String LF rest)).
  rewrite find_cons.
  change blank with (String CR (String LF CRLF)) at 1.
  rewrite !starts_with_cons, !Ascii.eqb_refl, Hr. cbn [andb].
  rewrite find_cons.
  change blank with (String CR (String LF CRLF)) at 1.
  rewrite starts_with_cons.
  change (Ascii.eqb CR LF) with false. cbn [andb].
  destruct (find blank rest); reflexivity.
Qed.

Lemma find_next_line :
  forall line rest,
    has_char CR line = false ->
    starts_with CRLF rest = false ->
    find blank (line ++ CRLF ++ rest)
    = option_map (Nat.add (String.length line + 2)) (find blank rest).
Proof.
  intros line rest Hl Hr.
  change blank with (String CR (String LF CRLF)).
  rewrite find_skip by assumption.
  change (String CR (String LF CRLF)) with blank.
  rewrite find_after_crlf by assumption.
  destruct (find blank rest); cbn [option_map]; f_equal; lia.
Qed.

Lemma find_blank_line :
  forall line rest,
    has_char CR line = false ->
    find blank (line ++ CRLF ++ CRLF ++ rest) = Some (String.length line).
Proof.
  intros line rest Hl.
  change blank with (String CR (String LF CRLF)).
  rewrite find_skip by assumption.
  change (String CR (String LF CRLF)) with blank.
  replace (CRLF ++ CRLF ++ rest) with (blank ++ rest) by reflexivity.
  destruct (blank ++ rest) as [|y r] eqn:E; [discriminate|].
  rewrite find_cons, <- E, starts_with_append. cbn [option_map].
  f_equal. lia.
Qed.

Lemma find_first_line :
  forall line rest,
    has_char CR line = false ->
    find CRLF (line ++ CRLF ++ rest) = Some (String.length line).
Proof.
  intros line rest Hl.
  change CRLF with (String CR (String LF EmptyString)) at 1.
  rewrite find_skip by assumption.
  change (String CR (String LF EmptyString)) with CRLF.
  destruct (CRLF ++ rest) as [|y r] eqn:E; [discriminate|].
  rewrite find_cons, <- E, starts_with_append. cbn [option_map].
  f_equal. lia.
Qed.

(** The status line and the body of a complete response are what a
    client reads back from it. *)
Lemma status_line_envelope :
  forall status body,
    has_char CR status = false ->
    status_line (envelope status body) = status.
Proof.
  intros status body H. unfold status_line, envelope.
  rewrite find_first_line by assumption. apply substring_prefix.
Qed.

Lemma body_of_envelope :
  forall status body,
    has_char CR status = false ->
    body_of (envelope status body) = body.
Proof.
  intros status body H. unfold body_of.
  change (CRLF ++ CRLF) with blank.
  set (digits := to_string (String.length body)).
  set (cl := "Content-Length: " ++ digits).
  assert (Hcl : has_char CR cl = false).
  { unfold cl. rewrite has_char_append. unfold digits.
    now rewrite to_string_no_cr. }
  assert (E : envelope status body
              = status ++ CRLF ++ "Content-Type: application/json" ++ CRLF
                ++ cl ++ CRLF ++ "Access-Control-Allow-Origin: *" ++ CRLF
                ++ CRLF ++ body).
  { unfold envelope, cl, digits. now rewrite !append_assoc. }
  rewrite E.
  rewrite find_next_line by (assumption || reflexivity).
  rewrite find_next_line; [|reflexivity|reflexivity].
  rewrite find_next_line; [|assumption|reflexivity].
  rewrite find_blank_line by reflexivity.
  cbn [option_map].
  set (head := status ++ CRLF ++ "Content-Type: application/json" ++ CRLF
                ++ cl ++ CRLF ++ "Access-Control-Allow-Origin: *" ++ CRLF
                ++ CRLF).
  assert (Eh : status ++ CRLF ++ "Content-Type: application/json" ++ CRLF
                ++ cl ++ CRLF ++ "Access-Control-Allow-Origin: *" ++ CRLF
                ++ CRLF ++ body = head ++ body).
  { unfold head. now rewrite !append_assoc. }
  rewrite Eh.
  assert (El : (String.length status + 2
               + (String.length "Content-Type: application/json" + 2
                  + (String.length cl + 2
                     + String.length "Access-Control-Allow-Origin: *")) + 4)%nat
               = String.length head).
  { unfold head. rewrite !length_append. cbn [String.length CRLF]. lia. }
  rewrite El, length_append.
  replace (String.length head + String.length body - String.length head)
    with (String.length body) by lia.
  apply substring_suffix.
Qed.

End EnvelopeFacts.

(** ** Dispatch *)

Section Dispatch.

Lemma not_found_json_lists_paths :
  Analytics.not_found_json = error_json analytics_paths.
Proof. vm_compute. reflexivity. Qed.

Lemma handle404_envelope :
  Analytics.handle404 = envelope missing (error_json analytics_paths).
Proof.
  unfold Analytics.handle404, envelope, missing.
  now rewrite not_found_json_lists_paths.
Qed.

Lemma route_unknown :
  forall dt path,
    ~ In path analytics_paths -> Analytics.route dt path = Analytics.handle404.
Proof.
  intros dt path H. unfold Analytics.route.
  repeat match goal with
         | |- context [String.eqb path ?k] =>
             destruct (String.eqb_spec path k) as [->|_];
             [exfalso; apply H; simpl; tauto|]
         end.
  reflexivity.
Qed.

Lemma route_known :
  forall dt path,
    In path analytics_paths ->
    Analytics.route dt path = envelope ok (analytics_fixture dt path).
Proof.
  intros dt path H. simpl in H.
  destruct H as [<-|[<-|[<-|[<-|[<-|[]]]]]]; reflexivity.
Qed.

Lemma handleClient_written :
  forall dt bytes_read data,
    (0 < bytes_read)%Z ->
    Analytics.written (Analytics.handleClient dt bytes_read data)
    = Some (Analytics.route dt
              (path_of (Analytics.request_of bytes_read data))).
Proof.
  intros dt bytes_read data H. unfold Analytics.handleClient, path_of.
  replace (bytes_read <=? 0)%Z with false by (symmetry; apply Z.leb_gt; lia).
  destruct (Analytics.parse (Analytics.request_of bytes_read data))
    as [[method path] version].
  reflexivity.
Qed.

Lemma respond_cases :
  forall request,
    Reporting.respond request
    = if found "GET /health" request then Reporting.handleHealthCheck
      else if found "GET /" request then Reporting.handleRootRequest
      else Reporting.not_found.
Proof. reflexivity. Qed.

Lemma reporting_responses_differ :
  Reporting.handleHealthCheck <> Reporting.not_found
  /\ Reporting.handleRootRequest <> Reporting.not_found
  /\ Reporting.handleHealthCheck <> Reporting.handleRootRequest.
Proof. repeat split; vm_compute; discriminate. Qed.

End Dispatch.

(** ** Unknown and known paths *)

Section Paths.

Lemma reporting_404_iff :
  forall request,
    Reporting.respond request = Reporting.not_found
    <-> ~ occurs "GET /health" request /\ ~ occurs "GET /" request.
Proof.
  intros request. rewrite respond_cases, <- !not_found_occurs.
  destruct reporting_responses_differ as (Hh & Hr & _).
  destruct (found "GET /health" request), (found "GET /" request);
    split; try tauto; try congruence; intros [? ?]; congruence.
Qed.

Lemma reporting_health_if :
  forall request,
    occurs "GET /health" request ->
    Reporting.respond request = envelope ok Reporting.health_json.
Proof.
  intros request H. apply found_occurs in H.
  rewrite respond_cases, H. reflexivity.
Qed.

Lemma reporting_root_if :
  forall request,
    ~ occurs "GET /health" request -> occurs "GET /" request ->
    Reporting.respond request = envelope ok Reporting.root_json.
Proof.
  intros request Hh Hr.
  apply not_found_occurs in Hh. apply found_occurs in Hr.
  rewrite respond_cases, Hh, Hr. reflexivity.
Qed.

End Paths.

(** ** GET requests to the Reporting Engine *)

Section GetRequests.

Lemma space_is_not :
  forall a c, isspace a = false -> isspace c = true -> Ascii.eqb a c = false.
Proof.
  intros a c Ha Hc. destruct (Ascii.eqb_spec a c) as [->|_]; congruence.
Qed.

Lemma at_boundary_c_str :
  forall rest, at_boundary rest = true -> at_boundary (c_str rest) = true.
Proof.
  intros [|c r] H; [reflexivity|]. cbn [at_boundary] in H.
  cbn [c_str]. rewrite Ascii.eqb_sym.
  rewrite (space_is_not NUL c) by (reflexivity || assumption).
  exact H.
Qed.

(** After [GET /] and the end of the path, a [GET /health] can only come
    later in the text. *)
Lemma found_health_after_root :
  forall rest,
    at_boundary rest = true ->
    found "GET /health" ("GET /" ++ rest) = found "GET /health" rest.
Proof.
  intros [|c r] H; [reflexivity|]. cbn [at_boundary] in H.
  cbn [append]. rewrite !found_cons.
  rewrite !starts_with_cons.
  rewrite (space_is_not "h" c) by (reflexivity || assumption).
  rewrite (space_is_not "G" c) by (reflexivity || assumption).
  reflexivity.
Qed.

Lemma reporting_get_health :
  forall rest,
    String.length ("GET /health" ++ rest) <= read_limit ->
    reporting_reply ("GET /health" ++ rest)
    = envelope ok Reporting.health_json.
Proof.
  intros rest Hlen. unfold reporting_reply.
  rewrite reporting_request_all by assumption.
  apply reporting_health_if.
  rewrite c_str_append. change (has_char NUL "GET /health") with false.
  cbv iota. now exists EmptyString, (c_str rest).
Qed.

Lemma reporting_get_root :
  forall rest,
    at_boundary rest = true ->
    ~ occurs "GET /health" rest ->
    String.length ("GET /" ++ rest) <= read_limit ->
    reporting_reply ("GET /" ++ rest) = envelope ok Reporting.root_json.
Proof.
  intros rest Hb Hrest Hlen. unfold reporting_reply.
  rewrite reporting_request_all by assumption.
  rewrite c_str_append. change (has_char NUL "GET /") with false.
  cbv iota. apply reporting_root_if.
  - apply not_found_occurs.
    rewrite found_health_after_root by now apply at_boundary_c_str.
    apply not_found_occurs. now apply not_occurs_c_str.
  - now exists EmptyString, (c_str rest).
Qed.

End GetRequests.

(** C1, as stated, fails in the Reporting Engine.  [GET /nope] has a path
    that is not a Reporting path, and is answered with status 200;
    [POST /nope] is answered with status 404, with an empty body in place of
    the error object. *)
Lemma C1_reporting_counterexample :
  path_of get_nope = "/nope"
  /\ path_of post_nope = "/nope"
  /\ ~ In "/nope" reporting_paths
  /\ status_line (reporting_reply get_nope) = ok
  /\ ok <> missing
  /\ status_line (reporting_reply post_nope) = missing
  /\ body_of (reporting_reply post_nope) = EmptyString
  /\ error_json reporting_paths <> EmptyString.
Proof.
  repeat split; try (vm_compute; reflexivity); try (vm_compute; discriminate).
  simpl. intros [H|[H|[]]]; discriminate.
Qed.

(** C1, amended.  In the Analytics Engine a request that was read (a
    [read] result above zero) and whose path is not one of the five known
    paths is answered with status 404 and the error object that lists those
    five paths.  In the Reporting Engine a request whose text (the buffer
    up to its first zero byte) contains neither [GET /health] nor [GET /]
    is answered with status 404 and an empty body. *)
Theorem C1_unknown_path_404 :
  (forall dt bytes_read data,
      (0 < bytes_read)%Z ->
      ~ In (path_of (Analytics.request_of bytes_read data)) analytics_paths ->
      exists response,
        Analytics.written (Analytics.handleClient dt bytes_read data)
        = Some response
        /\ status_line response = missing
        /\ body_of response = error_json analytics_paths)
  /\ (forall ret data,
        ~ occurs "GET /health" (Reporting.request_of ret data) ->
        ~ occurs "GET /" (Reporting.request_of ret data) ->
        status_line (Reporting.respond (Reporting.request_of ret data))
        = missing
        /\ body_of (Reporting.respond (Reporting.request_of ret data))
           = EmptyString).
Proof.
  split.
  - intros dt bytes_read data Hpos Hpath.
    exists (envelope missing (error_json analytics_paths)).
    rewrite handleClient_written by assumption.
    rewrite route_unknown by assumption.
    rewrite handle404_envelope.
    split; [reflexivity|].
    split; [apply status_line_envelope | apply body_of_envelope]; reflexivity.
  - intros ret data Hh Hr.
    rewrite (proj2 (reporting_404_iff _) (conj Hh Hr)).
    split; vm_compute; reflexivity.
Qed.

Lemma C1_unknown_path_404_witness :
  (exists response,
      analytics_reply friday get_nope = Some response
      /\ status_line response = missing
      /\ body_of response = error_json analytics_paths)
  /\ status_line (reporting_reply post_nope) = missing
  /\ body_of (reporting_reply post_nope) = EmptyString.
Proof.
  split.
  - apply (proj1 C1_unknown_path_404).
    + vm_compute. reflexivity.
    + vm_compute. intros [H|[H|[H|[H|[H|[]]]]]]; discriminate.
  - apply (proj2 C1_unknown_path_404);
      apply not_found_occurs; vm_compute; reflexivity.
Defined.

(** C2, as stated, fails in the Reporting Engine.  A [GET /] whose headers
    contain [GET /health] has the known path [/] and is answered with the
    body of [/health]; a [POST /health] has the known path [/health] and is
    answered with status 404. *)
Lemma C2_reporting_counterexample :
  path_of get_root_with_header = "/"
  /\ In "/" reporting_paths
  /\ body_of (reporting_reply get_root_with_header) = Reporting.health_json
  /\ Reporting.health_json <> Reporting.root_json
  /\ path_of post_health = "/health"
  /\ In "/health" reporting_paths
  /\ status_line (reporting_reply post_health) = missing
  /\ missing <> ok.
Proof.
  repeat split; try (vm_compute; reflexivity); try (vm_compute; discriminate);
    simpl; tauto.
Qed.

(** C2, amended.  In the Analytics Engine a request that was read and
    whose path is one of the five known paths is answered with the status
    line [HTTP/1.1 200 OK] and the fixture of that path, the current
    timestamp substituted.  In the Reporting Engine a request that was read
    whole and starts with [GET /health] and the end of the path is
    answered with status 200 and the health fixture; one that starts with
    [GET /] and the end of the path, and does not contain [GET /health]
    further on, is answered with status 200 and the root fixture. *)
Theorem C2_known_path_200 :
  (forall dt bytes_read data,
      (0 < bytes_read)%Z ->
      In (path_of (Analytics.request_of bytes_read data)) analytics_paths ->
      exists response,
        Analytics.written (Analytics.handleClient dt bytes_read data)
        = Some response
        /\ status_line response = ok
        /\ body_of response
           = analytics_fixture dt
               (path_of (Analytics.request_of bytes_read data)))
  /\ (forall rest,
        at_boundary rest = true ->
        String.length ("GET /health" ++ rest) <= read_limit ->
        status_line (reporting_reply ("GET /health" ++ rest)) = ok
        /\ body_of (reporting_reply ("GET /health" ++ rest))
           = Reporting.health_json)
  /\ (forall rest,
        at_boundary rest = true ->
        ~ occurs "GET /health" rest ->
        String.length ("GET /" ++ rest) <= read_limit ->
        status_line (reporting_reply ("GET /" ++ rest)) = ok
        /\ body_of (reporting_reply ("GET /" ++ rest)) = Reporting.root_json).
Proof.
  split; [|split].
  - intros dt bytes_read data Hpos Hpath.
    exists (envelope ok
              (analytics_fixture dt
                 (path_of (Analytics.request_of bytes_read data)))).
    rewrite handleClient_written by assumption.
    rewrite route_known by assumption.
    split; [reflexivity|].
    split; [apply status_line_envelope | apply body_of_envelope]; reflexivity.
  - intros rest _ Hlen. rewrite reporting_get_health by assumption.
    split; [apply status_line_envelope | apply body_of_envelope]; reflexivity.
  - intros rest Hb Hrest Hlen. rewrite reporting_get_root by assumption.
    split; [apply status_line_envelope | apply body_of_envelope]; reflexivity.
Qed.

Lemma C2_known_path_200_witness :
  (exists response,
      analytics_reply friday get_health = Some response
      /\ status_line response = ok
      /\ body_of response = analytics_fixture friday "/health")
  /\ body_of (reporting_reply get_health) = Reporting.health_json
  /\ body_of (reporting_reply get_root) = Reporting.root_json.
Proof.
  split; [|split].
  - apply (proj1 C2_known_path_200 friday 24%Z get_health).
    + reflexivity.
    + vm_compute. tauto.
  - apply (proj1 (proj2 C2_known_path_200) (" HTTP/1.1" ++ blank)).
    + reflexivity.
    + vm_compute. lia.
  - apply (proj2 (proj2 C2_known_path_200) (" HTTP/1.1" ++ blank)).
    + reflexivity.
    + apply not_found_occurs. vm_compute. reflexivity.
    + vm_compute. lia.
Defined.

(** C3.  The Reporting Engine has no handler for [/reports]: a
    [GET /reports] falls into the [GET /] branch and is answered with the
    very response of [GET /], whose body announces [/reports] as an
    endpoint that generates reports. *)
Theorem C3_reports_gets_root_payload :
  reporting_reply get_reports = Reporting.handleRootRequest
  /\ reporting_reply get_reports = reporting_reply get_root
  /\ status_line (reporting_reply get_reports) = ok
  /\ body_of (reporting_reply get_reports) = Reporting.root_json
  /\ found (q "'/reports':'Generate reports'") Reporting.root_json = true.
Proof. repeat split; vm_compute; reflexivity. Qed.

(** C4, as stated, fails for the 404 response of the Reporting Engine:
    the answer to [POST /nope] has neither the content type header nor the
    CORS header, and its body is empty. *)
Lemma C4_reporting_404_counterexample :
  reporting_reply post_nope = Reporting.not_found
  /\ found "Content-Type: application/json" Reporting.not_found = false
  /\ found "Access-Control-Allow-Origin: *" Reporting.not_found = false
  /\ body_of Reporting.not_found = EmptyString.
Proof. repeat split; vm_compute; reflexivity. Qed.

(** C4, amended.  Every response of the Analytics Engine, its 404
    included, and both 200 responses of the Reporting Engine consist of
    the status line, the JSON content type header, a content length header
    with the length of the body, the CORS header, a blank line and the
    JSON fixture.  The 404 response of the Reporting Engine consists of
    the status line, a content length header with value 0 and a blank
    line, and has no body. *)
Theorem C4_response_envelope :
  (forall dt bytes_read data response,
      Analytics.written (Analytics.handleClient dt bytes_read data)
      = Some response ->
      exists status body,
        response = envelope status body
        /\ ((status = ok
             /\ exists path,
                 In path analytics_paths /\ body = analytics_fixture dt path)
            \/ (status = missing /\ body = error_json analytics_paths)))
  /\ (forall request,
        Reporting.respond request = envelope ok Reporting.health_json
        \/ Reporting.respond request = envelope ok Reporting.root_json
        \/ Reporting.respond request = bare missing EmptyString).
Proof.
  split.
  - intros dt bytes_read data response H.
    unfold Analytics.handleClient in H.
    destruct (bytes_read <=? 0)%Z; [discriminate|].
    destruct (Analytics.parse (Analytics.request_of bytes_read data))
      as [[method path] version].
    cbn [Analytics.written] in H. injection H as <-.
    destruct (in_dec string_dec path analytics_paths) as [Hin|Hout].
    + exists ok, (analytics_fixture dt path).
      split; [now apply route_known|]. left. split; [reflexivity|].
      now exists path.
    + exists missing, (error_json analytics_paths).
      split; [|right; split; reflexivity].
      rewrite route_unknown by assumption. apply handle404_envelope.
  - intros request. rewrite respond_cases.
    destruct (found "GET /health" request); [left; reflexivity|].
    destruct (found "GET /" request); [right; left; reflexivity|].
    right; right. reflexivity.
Qed.

Lemma C4_response_envelope_witness :
  exists status body,
    Analytics.route friday "/trends" = envelope status body
    /\ ((status = ok
         /\ exists path,
             In path analytics_paths
             /\ body = analytics_fixture friday path)
        \/ (status = missing /\ body = error_json analytics_paths)).
Proof.
  apply (proj1 C4_response_envelope friday 21%Z
           ("GET /trends HTTP/1.0" ++ String LF EmptyString)).
  vm_compute. reflexivity.
Defined.

(** ** Request lines, headers and bodies *)

Section RequestLines.

Lemma word_not_empty :
  forall w, is_word w = true -> 0 < String.length w.
Proof. intros [|x w] H; [discriminate | simpl; lia]. Qed.

(** What [handleClient] does with a request that starts with a request
    line and was read whole. *)
Lemma handleClient_request_line :
  forall dt method path tail,
    is_word method = true -> is_word path = true ->
    String.length (method ++ " " ++ path ++ " " ++ tail) <= read_limit ->
    Analytics.handleClient dt
      (Z.of_nat (String.length (method ++ " " ++ path ++ " " ++ tail)))
      (method ++ " " ++ path ++ " " ++ tail)
    = {| Analytics.printed := ["Request: " ++ method ++ " " ++ path];
         Analytics.written := Some (Analytics.route dt path) |}.
Proof.
  intros dt method path tail Hm Hp Hlen.
  assert (Hpos : 0 < String.length (method ++ " " ++ path ++ " " ++ tail)).
  { rewrite length_append. apply word_not_empty in Hm. lia. }
  unfold Analytics.handleClient.
  replace (Z.of_nat (String.length (method ++ " " ++ path ++ " " ++ tail)) <=? 0)%Z
    with false by (symmetry; apply Z.leb_gt; lia).
  rewrite analytics_request_all by lia.
  unfold Analytics.parse.
  change (method ++ " " ++ path ++ " " ++ tail)
    with (method ++ String " "%char (path ++ String " "%char tail)).
  rewrite extract_word by (assumption || reflexivity).
  rewrite extract_space_word by (assumption || reflexivity).
  destruct (extract EmptyString
              {| pending := String " "%char tail; failbit := false |}).
  reflexivity.
Qed.

Lemma path_of_after_method :
  forall method tail,
    is_word method = true ->
    path_of (method ++ " " ++ tail)
    = fst (extract EmptyString
             {| pending := String " "%char tail; failbit := false |}).
Proof.
  intros method tail Hm. unfold path_of.
  change (method ++ " " ++ tail) with (method ++ String " "%char tail).
  rewrite parse_after_method by (assumption || reflexivity).
  destruct (extract EmptyString
              {| pending := String " "%char tail; failbit := false |})
    as [path s2].
  destruct (extract EmptyString s2). reflexivity.
Qed.

Lemma analytics_reply_route :
  forall dt data,
    0 < String.length data <= read_limit ->
    analytics_reply dt data = Some (Analytics.route dt (path_of data)).
Proof.
  intros dt data H. unfold analytics_reply.
  rewrite handleClient_written by lia.
  now rewrite analytics_request_all.
Qed.

(** Text after the request line that does not contain [pat] does not
    change whether [find] finds [pat] in the request. *)
Lemma found_in_request_line :
  forall pat line rest,
    pat <> EmptyString ->
    has_char CR pat = false -> has_char LF pat = false ->
    ~ occurs pat rest ->
    found pat (c_str (line ++ CRLF ++ rest)) = found pat (c_str line).
Proof.
  intros pat line rest Hne Hcr Hlf Hrest.
  rewrite c_str_append.
  destruct (has_char NUL line) eqn:Hnul; [reflexivity|].
  rewrite (c_str_no_nul line Hnul).
  rewrite c_str_append.
  change (has_char NUL CRLF) with false. cbv iota.
  change (CRLF ++ c_str rest) with (String CR (String LF (c_str rest))).
  rewrite found_sep by assumption.
  change (String LF (c_str rest)) with (EmptyString ++ String LF (c_str rest)).
  rewrite found_sep by assumption.
  apply not_occurs_c_str in Hrest. apply not_found_occurs in Hrest.
  rewrite Hrest, found_nil.
  destruct pat; [congruence|]. cbn [starts_with].
  now rewrite !orb_false_r.
Qed.

End RequestLines.

(** C5, as stated, fails in the Reporting Engine: two requests with the
    request line [GET / HTTP/1.1], one without headers and one with a header
    that contains [GET /health], get different responses. *)
Lemma C5_reporting_counterexample :
  get_root = root_line ++ CRLF ++ CRLF
  /\ get_root_with_header
     = root_line ++ CRLF ++ "Referer: GET /health" ++ CRLF ++ CRLF
  /\ reporting_reply get_root = Reporting.handleRootRequest
  /\ reporting_reply get_root_with_header = Reporting.handleHealthCheck
  /\ reporting_reply get_root <> reporting_reply get_root_with_header.
Proof.
  repeat split; try (vm_compute; reflexivity). vm_compute. discriminate.
Qed.

(** C5, amended.  In the Analytics Engine two requests that were read
    whole and start with the same request line (a method and a path without
    white space, then a version) are handled alike whatever follows the
    line: the same line is printed and the same response sent.  In the
    Reporting Engine two requests that were read whole and start with the
    same line get the same response provided that what follows the line
    contains [GET /] in neither of them. *)
Theorem C5_same_request_line :
  (forall dt method path version rest1 rest2,
      is_word method = true -> is_word path = true ->
      String.length (request_line method path version ++ CRLF ++ rest1)
      <= read_limit ->
      String.length (request_line method path version ++ CRLF ++ rest2)
      <= read_limit ->
      Analytics.handleClient dt
        (Z.of_nat
           (String.length (request_line method path version ++ CRLF ++ rest1)))
        (request_line method path version ++ CRLF ++ rest1)
      = Analytics.handleClient dt
          (Z.of_nat
             (String.length (request_line method path version ++ CRLF ++ rest2)))
          (request_line method path version ++ CRLF ++ rest2))
  /\ (forall line rest1 rest2,
        ~ occurs "GET /" rest1 -> ~ occurs "GET /" rest2 ->
        String.length (line ++ CRLF ++ rest1) <= read_limit ->
        String.length (line ++ CRLF ++ rest2) <= read_limit ->
        reporting_reply (line ++ CRLF ++ rest1)
        = reporting_reply (line ++ CRLF ++ rest2)).
Proof.
  split.
  - intros dt method path version rest1 rest2 Hm Hp H1 H2.
    assert (E : forall rest,
               request_line method path version ++ CRLF ++ rest
               = method ++ " " ++ path ++ " " ++ version ++ CRLF ++ rest).
    { intros rest. unfold request_line. now rewrite !append_assoc. }
    rewrite !E in *.
    now rewrite !handleClient_request_line.
  - intros line rest1 rest2 Hr1 Hr2 H1 H2.
    unfold reporting_reply.
    rewrite !reporting_request_all by assumption.
    rewrite !respond_cases.
    assert (Hh : forall rest, ~ occurs "GET /" rest ->
                   ~ occurs "GET /health" rest).
    { intros rest H Ho. apply H.
      apply (occurs_longer "GET /" "health"). exact Ho. }
    rewrite !(found_in_request_line "GET /health")
      by (auto; discriminate).
    rewrite !(found_in_request_line "GET /")
      by (auto; discriminate).
    reflexivity.
Qed.

Lemma C5_same_request_line_witness :
  Analytics.handleClient friday 24 get_health
  = Analytics.handleClient friday 51
      (request_line "GET" "/health" "HTTP/1.1" ++ CRLF
       ++ "Referer: GET /predictions" ++ blank)
  /\ reporting_reply get_root
     = reporting_reply (root_line ++ CRLF ++ "Host: localhost" ++ blank).
Proof.
  split.
  - apply (proj1 C5_same_request_line friday "GET" "/health" "HTTP/1.1"
             CRLF ("Referer: GET /predictions" ++ blank));
      (reflexivity || (vm_compute; lia)).
  - apply (proj2 C5_same_request_line root_line CRLF
             ("Host: localhost" ++ blank));
      try (apply not_found_occurs; vm_compute; reflexivity);
      vm_compute; lia.
Defined.

(** C9.  In the Analytics Engine the method plays no part in the
    dispatch: two requests that were read whole and differ only in their
    first token have the same path, so select the same handler, and are
    sent the same response. *)
Theorem C9_method_independent :
  forall dt method1 method2 tail,
    is_word method1 = true -> is_word method2 = true ->
    String.length (method1 ++ " " ++ tail) <= read_limit ->
    String.length (method2 ++ " " ++ tail) <= read_limit ->
    path_of (method1 ++ " " ++ tail) = path_of (method2 ++ " " ++ tail)
    /\ analytics_reply dt (method1 ++ " " ++ tail)
       = analytics_reply dt (method2 ++ " " ++ tail).
Proof.
  intros dt method1 method2 tail H1 H2 L1 L2.
  assert (E : path_of (method1 ++ " " ++ tail)
              = path_of (method2 ++ " " ++ tail))
    by now rewrite !path_of_after_method.
  split; [exact E|].
  rewrite !analytics_reply_route.
  - now rewrite E.
  - split; [|assumption].
    rewrite length_append. apply word_not_empty in H2. lia.
  - split; [|assumption].
    rewrite length_append. apply word_not_empty in H1. lia.
Qed.

Lemma C9_method_independent_witness :
  path_of get_health = path_of post_health
  /\ analytics_reply friday get_health = analytics_reply friday post_health.
Proof.
  apply (C9_method_independent friday "GET" "POST" ("/health HTTP/1.1" ++ blank));
    (reflexivity || (vm_compute; lia)).
Defined.

(** C10, as stated, fails: a buffer whose first byte is zero and which
    goes on with [GET /health] contains that substring and is answered with
    the 404 response, because the search runs on the text before the first
    zero byte only. *)
Lemma C10_zero_byte_counterexample :
  found "GET /health" nul_then_get_health = true
  /\ String.length nul_then_get_health <= read_limit
  /\ Reporting.request_of 12 nul_then_get_health = EmptyString
  /\ reporting_reply nul_then_get_health = Reporting.not_found
  /\ Reporting.not_found <> Reporting.handleHealthCheck.
Proof.
  repeat split; try (vm_compute; reflexivity).
  - vm_compute. lia.
  - vm_compute. discriminate.
Qed.

(** C10, amended.  In the Reporting Engine the response is decided by
    substring search over the text of the buffer up to its first zero
    byte, with a fixed precedence: a text that contains [GET /health]
    anywhere gets the health response; otherwise a text that contains
    [GET /] anywhere gets the root response; only a text that contains
    neither gets the 404 response.  For a request that was read whole and
    has no zero byte that text is the whole request. *)
Theorem C10_substring_precedence :
  (forall ret data,
      (occurs "GET /health" (Reporting.request_of ret data) ->
       Reporting.respond (Reporting.request_of ret data)
       = Reporting.handleHealthCheck)
      /\ (~ occurs "GET /health" (Reporting.request_of ret data) ->
          occurs "GET /" (Reporting.request_of ret data) ->
          Reporting.respond (Reporting.request_of ret data)
          = Reporting.handleRootRequest)
      /\ (~ occurs "GET /health" (Reporting.request_of ret data) ->
          ~ occurs "GET /" (Reporting.request_of ret data) ->
          Reporting.respond (Reporting.request_of ret data)
          = Reporting.not_found))
  /\ (forall data,
        String.length data <= read_limit ->
        Reporting.request_of (Z.of_nat (String.length data)) data = c_str data)
  /\ (forall data,
        String.length data <= read_limit -> has_char NUL data = false ->
        Reporting.request_of (Z.of_nat (String.length data)) data = data).
Proof.
  split; [|split].
  - intros ret data. rewrite respond_cases.
    rewrite <- !not_found_occurs, <- !found_occurs.
    destruct (found "GET /health" (Reporting.request_of ret data)),
      (found "GET /" (Reporting.request_of ret data));
      repeat split; intros; congruence.
  - apply reporting_request_all.
  - intros data Hlen Hnul. rewrite reporting_request_all by assumption.
    now apply c_str_no_nul.
Qed.

Lemma C10_substring_precedence_witness :
  Reporting.respond (Reporting.request_of 43 get_root_with_header)
  = Reporting.handleHealthCheck
  /\ Reporting.respond (Reporting.request_of 26 get_nope)
     = Reporting.handleRootRequest
  /\ Reporting.respond (Reporting.request_of 27 post_nope)
     = Reporting.not_found
  /\ Reporting.request_of 24 get_health = get_health.
Proof.
  destruct C10_substring_precedence as (Hrespond & _ & Hwhole).
  split; [|split; [|split]].
  - apply (proj1 (Hrespond _ _)).
    apply found_occurs. vm_compute. reflexivity.
  - apply (proj1 (proj2 (Hrespond _ _))).
    + apply not_found_occurs. vm_compute. reflexivity.
    + apply found_occurs. vm_compute. reflexivity.
  - apply (proj2 (proj2 (Hrespond _ _)));
      apply not_found_occurs; vm_compute; reflexivity.
  - apply (Hwhole get_health); [vm_compute; lia | vm_compute; reflexivity].
Defined.

(** ** The processes *)

Section Processes.

Lemma analytics_run_exited :
  forall es p s,
    Analytics.at_pc p = Analytics.Exited s -> Analytics.run p es = p.
Proof.
  induction es as [|e es IH]; intros p s H; [reflexivity|].
  unfold Analytics.run in *. cbn [fold_left].
  assert (E : Analytics.step p e = p) by (unfold Analytics.step; now rewrite H).
  rewrite E. now apply (IH p s).
Qed.

Lemma reporting_run_exited :
  forall es p s,
    Reporting.at_pc p = Reporting.Exited s -> Reporting.run p es = p.
Proof.
  induction es as [|e es IH]; intros p s H; [reflexivity|].
  unfold Reporting.run in *. cbn [fold_left].
  assert (E : Reporting.step p e = p) by (unfold Reporting.step; now rewrite H).
  rewrite E. now apply (IH p s).
Qed.

Lemma analytics_client_step_pc :
  forall dt fd ret data p,
    Analytics.at_pc (Analytics.client_step dt fd ret data p)
    = Analytics.at_pc p.
Proof.
  intros. unfold Analytics.client_step.
  destruct (existsb (Z.eqb fd) (Analytics.threads p)); [|reflexivity].
  destruct (Analytics.written (Analytics.handleClient dt ret data));
    reflexivity.
Qed.

Lemma analytics_step_status :
  forall p e, analytics_status_ok p -> analytics_status_ok (Analytics.step p e).
Proof.
  intros p e H. unfold Analytics.step.
  destruct (Analytics.at_pc p) eqn:Hpc; try exact H;
    (destruct (what e) as [sig|ret d|fd ret d];
     [ unfold analytics_status_ok; cbn; destruct (0 <? Analytics.server_fd p)%Z; cbn; auto
     | unfold analytics_status_ok, Analytics.main_step, Analytics.loop, Analytics.fail;
       rewrite Hpc;
       repeat match goal with
              | |- context [if ?b then _ else _] => destruct b
              end; cbn [Analytics.at_pc Analytics.goto]; auto
     | unfold analytics_status_ok; rewrite analytics_client_step_pc, Hpc; exact I ]).
Qed.

Lemma reporting_step_status :
  forall p e, reporting_status_ok p -> reporting_status_ok (Reporting.step p e).
Proof.
  intros p e H. unfold Reporting.step.
  destruct (Reporting.at_pc p) eqn:Hpc; try exact H;
    (destruct (what e) as [sig|ret d|fd ret d];
     [ unfold reporting_status_ok; cbn; destruct (0 <? Reporting.server_fd p)%Z; cbn; auto
     | unfold reporting_status_ok, Reporting.main_step, Reporting.loop, Reporting.fail;
       rewrite Hpc;
       repeat match goal with
              | |- context [if ?b then _ else _] => destruct b
              end; cbn [Reporting.at_pc Reporting.goto]; auto
     | unfold reporting_status_ok; rewrite Hpc; exact I ]).
Qed.

Lemma analytics_run_status :
  forall es p, analytics_status_ok p -> analytics_status_ok (Analytics.run p es).
Proof.
  induction es as [|e es IH]; intros p H; [exact H|].
  apply IH. now apply analytics_step_status.
Qed.

Lemma reporting_run_status :
  forall es p, reporting_status_ok p -> reporting_status_ok (Reporting.run p es).
Proof.
  induction es as [|e es IH]; intros p H; [exact H|].
  apply IH. now apply reporting_step_status.
Qed.

Lemma analytics_signal_exit :
  forall p t sig,
    Analytics.exit_status p = None ->
    Analytics.exit_status
      (Analytics.step p {| clock := t; what := Signal sig |}) = Some 0%Z.
Proof.
  intros p t sig H. unfold Analytics.exit_status, Analytics.step in *.
  destruct (Analytics.at_pc p); try discriminate; reflexivity.
Qed.

Lemma reporting_signal_exit :
  forall p t sig,
    Reporting.exit_status p = None ->
    Reporting.exit_status
      (Reporting.step p {| clock := t; what := Signal sig |}) = Some 0%Z.
Proof.
  intros p t sig H. unfold Reporting.exit_status, Reporting.step in *.
  destruct (Reporting.at_pc p); try discriminate; reflexivity.
Qed.

Lemma analytics_exited_status :
  forall p es s,
    Analytics.at_pc p = Analytics.Exited s ->
    Analytics.exit_status (Analytics.run p es) = Some s.
Proof.
  intros p es s H. rewrite (analytics_run_exited es p s H).
  unfold Analytics.exit_status. now rewrite H.
Qed.

Lemma reporting_exited_status :
  forall p es s,
    Reporting.at_pc p = Reporting.Exited s ->
    Reporting.exit_status (Reporting.run p es) = Some s.
Proof.
  intros p es s H. rewrite (reporting_run_exited es p s H).
  unfold Reporting.exit_status. now rewrite H.
Qed.

(** The setup of the Analytics Engine, call by call. *)
Lemma analytics_setup_failure :
  forall t1 t2 t3 t4 s o b l es,
    ebadf s o ->
    (s < 0 \/ b < 0 \/ l < 0)%Z ->
    Analytics.exit_status
      (Analytics.run Analytics.start
         (sys t1 s :: sys t2 o :: sys t3 b :: sys t4 l :: es)) = Some 1%Z.
Proof.
  intros t1 t2 t3 t4 s o b l es Hbad Hfail.
  analytics_step.
  destruct (s =? 0)%Z eqn:Hs; [now apply analytics_exited_status|].
  analytics_step.
  destruct (o =? 0)%Z eqn:Ho; cbn [negb]; [|now apply analytics_exited_status].
  analytics_step.
  destruct (b <? 0)%Z eqn:Hb; [now apply analytics_exited_status|].
  analytics_step.
  destruct (l <? 0)%Z eqn:Hl; [now apply analytics_exited_status|].
  exfalso. unfold ebadf in Hbad. lia.
Qed.

(** The setup of the Reporting Engine: the result of [setsockopt] is
    not looked at. *)
Lemma reporting_setup_failure :
  forall t1 t2 t3 t4 s o b l es,
    ebadf s b ->
    (s < 0 \/ b < 0 \/ l < 0)%Z ->
    Reporting.exit_status
      (Reporting.run Reporting.start
         (sys t1 s :: sys t2 o :: sys t3 b :: sys t4 l :: es)) = Some 1%Z.
Proof.
  intros t1 t2 t3 t4 s o b l es Hbad Hfail.
  reporting_step.
  destruct (s =? 0)%Z eqn:Hs; [now apply reporting_exited_status|].
  reporting_step. reporting_step.
  destruct (b <? 0)%Z eqn:Hb; [now apply reporting_exited_status|].
  reporting_step.
  destruct (l <? 0)%Z eqn:Hl; [now apply reporting_exited_status|].
  exfalso. unfold ebadf in Hbad. lia.
Qed.

Lemma handleClient_failed :
  forall dt ret data,
    (ret <= 0)%Z ->
    Analytics.handleClient dt ret data
    = {| Analytics.printed := []; Analytics.written := None |}.
Proof.
  intros dt ret data H. unfold Analytics.handleClient.
  now replace (ret <=? 0)%Z with true by (symmetry; apply Z.leb_le; lia).
Qed.

Lemma existsb_last :
  forall fd ts, existsb (Z.eqb fd) (ts ++ [fd]) = true.
Proof.
  intros fd ts. rewrite existsb_app. cbn [existsb].
  rewrite Z.eqb_refl. now rewrite orb_true_r.
Qed.

Lemma existsb_member :
  forall fd ts, In fd ts -> existsb (Z.eqb fd) ts = true.
Proof.
  intros fd ts H. apply existsb_exists. exists fd.
  split; [assumption | apply Z.eqb_refl].
Qed.

(** A failed [accept] of a running server: one line on the error stream,
    nothing else changes. *)
Lemma analytics_accept_failed :
  forall p t ret d,
    analytics_serving p -> (ret < 0)%Z ->
    Analytics.step p {| clock := t; what := Sys ret d |}
    = Analytics.complain "Accept failed" p.
Proof.
  intros [r fd pc th co ce se cl] t ret d [Hr Hpc] Hret.
  cbn in Hr, Hpc. subst r pc. analytics_unfold.
  now replace (ret <? 0)%Z with true by (symmetry; apply Z.ltb_lt; lia).
Qed.

Lemma reporting_accept_failed :
  forall p t ret d,
    Reporting.running p = true -> Reporting.at_pc p = Reporting.AtAccept ->
    (ret < 0)%Z ->
    Reporting.step p {| clock := t; what := Sys ret d |}
    = Reporting.complain "Accept failed" p.
Proof.
  intros [r fd pc co ce se cl] t ret d Hr Hpc Hret.
  cbn in Hr, Hpc. subst r pc. reporting_unfold.
  now replace (ret <? 0)%Z with true by (symmetry; apply Z.ltb_lt; lia).
Qed.

(** A failed [read] in a thread of the Analytics Engine: the client
    socket is closed, nothing is printed or sent. *)
Lemma analytics_read_failed :
  forall p t fd ret d,
    analytics_serving p -> In fd (Analytics.threads p) -> (ret <= 0)%Z ->
    Analytics.step p {| clock := t; what := Client fd ret d |}
    = Analytics.close fd
        (Analytics.set_threads
           (Analytics.remove_first fd (Analytics.threads p)) p).
Proof.
  intros [r sfd pc th co ce se cl] t fd ret d [Hr Hpc] Hin Hret.
  cbn in Hr, Hpc, Hin. subst r pc. analytics_unfold.
  rewrite (existsb_member fd th Hin).
  rewrite handleClient_failed by assumption.
  cbn [Analytics.printed Analytics.written]. now rewrite app_nil_r.
Qed.

(** The Reporting Engine does not look at the result of [read] and has
    no output statement between the [read] and the next [accept]: handling
    a [read] that failed writes nothing on either stream. *)
Lemma reporting_read_failed_silent :
  forall p t c ret d,
    Reporting.at_pc p = Reporting.AtRead c ->
    (ret <= 0)%Z ->
    Reporting.cerr (Reporting.step p {| clock := t; what := Sys ret d |})
    = Reporting.cerr p
    /\ Reporting.cout (Reporting.step p {| clock := t; what := Sys ret d |})
       = Reporting.cout p.
Proof.
  intros [r fd pc co ce se cl] t c ret d Hpc Hret.
  cbn in Hpc. subst pc. reporting_unfold.
  destruct r; split; reflexivity.
Qed.

Lemma analytics_step_serving :
  forall p e,
    analytics_serving p -> no_signal e = true ->
    analytics_serving (Analytics.step p e).
Proof.
  intros [r fd pc th co ce se cl] [t [sig|ret d|c ret d]] [Hr Hpc] He;
    cbn in Hr, Hpc; subst r pc; try discriminate.
  - analytics_unfold. destruct (ret <? 0)%Z; split; reflexivity.
  - analytics_unfold. destruct (existsb (Z.eqb c) th); [|split; reflexivity].
    destruct (Analytics.written (Analytics.handleClient t ret d));
      split; reflexivity.
Qed.

Lemma reporting_step_serving :
  forall p e,
    reporting_serving p -> no_signal e = true ->
    reporting_serving (Reporting.step p e).
Proof.
  intros [r fd pc co ce se cl] [t [sig|ret d|c ret d]] [Hr Hpc] He;
    cbn in Hr, Hpc; subst r; try discriminate.
  - destruct Hpc as [->|[c ->]]; reporting_unfold.
    + destruct (ret <? 0)%Z; split; cbn; eauto.
    + split; cbn; eauto.
  - destruct Hpc as [->|[c' ->]]; split; cbn; eauto.
Qed.

Lemma analytics_run_serving :
  forall es p,
    analytics_serving p -> forallb no_signal es = true ->
    analytics_serving (Analytics.run p es).
Proof.
  induction es as [|e es IH]; intros p Hp Hes; [exact Hp|].
  cbn [forallb] in Hes. apply andb_true_iff in Hes. destruct Hes as [He Hes].
  apply IH; [now apply analytics_step_serving | assumption].
Qed.

Lemma reporting_run_serving :
  forall es p,
    reporting_serving p -> forallb no_signal es = true ->
    reporting_serving (Reporting.run p es).
Proof.
  induction es as [|e es IH]; intros p Hp Hes; [exact Hp|].
  cbn [forallb] in Hes. apply andb_true_iff in Hes. destruct Hes as [He Hes].
  apply IH; [now apply reporting_step_serving | assumption].
Qed.


(** After a failed [read] the next connection is served. *)
Lemma analytics_serves_after_error :
  forall p t1 t2 t3 t4 c c' data,
    analytics_serving p -> (0 <= c)%Z -> (0 <= c')%Z ->
    0 < String.length data <= read_limit ->
    forall p',
      p' = Analytics.run p
             [ {| clock := t1; what := Sys c EmptyString |};
               {| clock := t2; what := Client c (-1) EmptyString |};
               {| clock := t3; what := Sys c' EmptyString |};
               {| clock := t4; what := client_received c' data |} ] ->
      Analytics.sent p'
      = (Analytics.sent p ++ [(c', Analytics.route t4 (path_of data))])%list
      /\ Analytics.closed p' = (Analytics.closed p ++ [c; c'])%list
      /\ Analytics.cerr p' = Analytics.cerr p
      /\ analytics_serving p'.
Proof.
  intros [r sfd pc th co ce se cl] t1 t2 t3 t4 c c' data [Hr Hpc] Hc Hc' Hlen
    p' ->.
  cbn in Hr, Hpc. subst r pc.
  analytics_step.
  replace (c <? 0)%Z with false by (symmetry; apply Z.ltb_ge; lia).
  analytics_step.
  rewrite existsb_last, handleClient_failed by lia.
  cbn [Analytics.printed Analytics.written].
  analytics_step.
  replace (c' <? 0)%Z with false by (symmetry; apply Z.ltb_ge; lia).
  analytics_step.
  rewrite existsb_last.
  rewrite handleClient_written by lia.
  rewrite analytics_request_all by assumption.
  unfold Analytics.run, analytics_serving. cbn.
  rewrite <- !app_assoc. repeat split; reflexivity.
Qed.

(** The Reporting Engine never looks at the clock. *)
Lemma reporting_step_clock :
  forall p t1 t2 h,
    Reporting.step p {| clock := t1; what := h |}
    = Reporting.step p {| clock := t2; what := h |}.
Proof. reflexivity. Qed.

Lemma reporting_run_clock :
  forall es1 es2 p,
    map what es1 = map what es2 ->
    Reporting.run p es1 = Reporting.run p es2.
Proof.
  induction es1 as [|[t1 h1] es1 IH]; intros [|[t2 h2] es2] p H;
    try discriminate; [reflexivity|].
  cbn [map what] in H. injection H as -> H.
  unfold Reporting.run in *. cbn [fold_left].
  rewrite (reporting_step_clock p t1 t2 h2). now apply IH.
Qed.

Lemma append_inv_head :
  forall a b c : string, a ++ b = a ++ c -> b = c.
Proof.
  induction a as [|x a IH]; intros b c H; [exact H|].
  cbn [append] in H. injection H as H. now apply IH.
Qed.

Lemma append_inv_tail :
  forall a b c : string, a ++ c = b ++ c -> a = b.
Proof.
  induction a as [|x a IH]; intros b c H.
  - destruct b as [|y b]; [reflexivity|]. exfalso.
    apply (f_equal String.length) in H.
    cbn [append String.length] in H. rewrite length_append in H. lia.
  - destruct b as [|y b].
    + exfalso. apply (f_equal String.length) in H.
      cbn [append String.length] in H. rewrite length_append in H. lia.
    + cbn [append] in H. injection H as -> H. f_equal. exact (IH b c H).
Qed.

(** The four handlers of the Analytics Engine that read the clock put
    the timestamp between two fixed texts. *)
Lemma analytics_timestamp_in_body :
  forall path,
    In path timestamped_paths ->
    exists before after,
      forall dt,
        body_of (Analytics.route dt path)
        = before ++ Analytics.getCurrentTimestamp dt ++ after.
Proof.
  intros path H. cbn [In timestamped_paths] in H.
  destruct H as [<-|[<-|[<-|[<-|[]]]]];
    eexists; eexists; intros dt;
    (rewrite (route_known dt) by (simpl; tauto));
    (rewrite body_of_envelope by reflexivity); reflexivity.
Qed.

End Processes.

(** C6.  In both services the process exits with status 1 when the
    creation of the socket, [bind] or [listen] fails (a call on the invalid
    descriptor of a failed [socket] failing in turn), it exits with status 0
    when SIGINT or SIGTERM arrives, and no run ends with a status other
    than 0 and 1. *)
Theorem C6_exit_status :
  (forall es s,
      Analytics.exit_status (Analytics.run Analytics.start es) = Some s ->
      s = 0%Z \/ s = 1%Z)
  /\ (forall es s,
        Reporting.exit_status (Reporting.run Reporting.start es) = Some s ->
        s = 0%Z \/ s = 1%Z)
  /\ (forall es t sig,
        Analytics.exit_status (Analytics.run Analytics.start es) = None ->
        Analytics.exit_status
          (Analytics.run Analytics.start (es ++ [at_time t (Signal sig)]))
        = Some 0%Z)
  /\ (forall es t sig,
        Reporting.exit_status (Reporting.run Reporting.start es) = None ->
        Reporting.exit_status
          (Reporting.run Reporting.start (es ++ [at_time t (Signal sig)]))
        = Some 0%Z)
  /\ (forall t1 t2 t3 t4 s o b l es,
        ebadf s o ->
        (s < 0 \/ b < 0 \/ l < 0)%Z ->
        Analytics.exit_status
          (Analytics.run Analytics.start
             (sys t1 s :: sys t2 o :: sys t3 b :: sys t4 l :: es))
        = Some 1%Z)
  /\ (forall t1 t2 t3 t4 s o b l es,
        ebadf s b ->
        (s < 0 \/ b < 0 \/ l < 0)%Z ->
        Reporting.exit_status
          (Reporting.run Reporting.start
             (sys t1 s :: sys t2 o :: sys t3 b :: sys t4 l :: es))
        = Some 1%Z).
Proof.
  repeat apply conj.
  - intros es s H.
    assert (Hok := analytics_run_status es Analytics.start I).
    unfold analytics_status_ok in Hok. unfold Analytics.exit_status in H.
    destruct (Analytics.at_pc (Analytics.run Analytics.start es));
      try discriminate.
    injection H as <-. exact Hok.
  - intros es s H.
    assert (Hok := reporting_run_status es Reporting.start I).
    unfold reporting_status_ok in Hok. unfold Reporting.exit_status in H.
    destruct (Reporting.at_pc (Reporting.run Reporting.start es));
      try discriminate.
    injection H as <-. exact Hok.
  - intros es t sig H. unfold Analytics.run in *. rewrite fold_left_app.
    now apply analytics_signal_exit.
  - intros es t sig H. unfold Reporting.run in *. rewrite fold_left_app.
    now apply reporting_signal_exit.
  - apply analytics_setup_failure.
  - apply reporting_setup_failure.
Qed.

Lemma C6_exit_status_witness :
  Analytics.exit_status
    (Analytics.run Analytics.start
       [ sys friday 3; sys friday 0; sys friday (-1); sys friday 0 ])
  = Some 1%Z
  /\ Reporting.exit_status
       (Reporting.run Reporting.start
          [ sys friday (-1); sys friday (-1); sys friday (-1);
            sys friday (-1) ])
     = Some 1%Z
  /\ Analytics.exit_status
       (Analytics.run Analytics.start
          (accepted friday ++ [at_time saturday (Signal SIGTERM)]))
     = Some 0%Z
  /\ Reporting.exit_status
       (Reporting.run Reporting.start
          (accepted friday ++ [at_time saturday (Signal SIGINT)]))
     = Some 0%Z
  /\ (1 = 0 \/ 1 = 1)%Z.
Proof.
  destruct C6_exit_status as (Ha & Hr & Hsa & Hsr & Hfa & Hfr).
  repeat apply conj.
  - apply Hfa; unfold ebadf; lia.
  - apply Hfr; unfold ebadf; lia.
  - apply Hsa. reflexivity.
  - apply Hsr. reflexivity.
  - apply (Ha [ sys friday 3; sys friday 0; sys friday (-1) ]). reflexivity.
Defined.

(** C7, as stated, fails: neither service logs a failed [read].  In the
    run of the Analytics Engine in which the [read] of the first connection
    fails the client socket is closed, the error stream stays empty and the
    output stream is what it was after the [accept]; the Reporting Engine
    writes nothing on its streams either. *)
Lemma C7_read_error_not_logged :
  Analytics.cerr (Analytics.run Analytics.start (analytics_failed_read friday))
  = []
  /\ Analytics.cout
       (Analytics.run Analytics.start (analytics_failed_read friday))
     = Analytics.cout (Analytics.run Analytics.start (accepted friday))
  /\ Analytics.closed
       (Analytics.run Analytics.start (analytics_failed_read friday))
     = [4%Z]
  /\ Reporting.cerr
       (Reporting.run Reporting.start (reporting_failed_read friday))
     = []
  /\ Reporting.cout
       (Reporting.run Reporting.start (reporting_failed_read friday))
     = Reporting.cout (Reporting.run Reporting.start (accepted friday)).
Proof. repeat apply conj; vm_compute; reflexivity. Qed.

(** C7, amended.  In both services a failed [accept] of a running server
    is logged on the error stream, changes nothing else and leaves the
    server in its accept loop.  A failed [read] is logged by neither
    service.  In the Analytics Engine a failed [read] does not end the
    server: the thread closes the client socket and sends nothing, without
    a signal the running server never exits, and a connection accepted
    after the failure is served.  What becomes of the Reporting Engine
    after a failed [read], whose result it does not look at before it
    calls [send], is not part of this statement. *)
Theorem C7_connection_errors :
  (forall p t ret d,
      analytics_serving p -> (ret < 0)%Z ->
      Analytics.step p (at_time t (Sys ret d))
      = Analytics.complain "Accept failed" p)
  /\ (forall p t ret d,
        Reporting.running p = true ->
        Reporting.at_pc p = Reporting.AtAccept ->
        (ret < 0)%Z ->
        Reporting.step p (at_time t (Sys ret d))
        = Reporting.complain "Accept failed" p)
  /\ (forall p t fd ret d,
        analytics_serving p -> In fd (Analytics.threads p) -> (ret <= 0)%Z ->
        Analytics.step p (at_time t (Client fd ret d))
        = Analytics.close fd
            (Analytics.set_threads
               (Analytics.remove_first fd (Analytics.threads p)) p))
  /\ (forall p t c ret d,
        Reporting.at_pc p = Reporting.AtRead c ->
        (ret <= 0)%Z ->
        Reporting.cerr (Reporting.step p (at_time t (Sys ret d)))
        = Reporting.cerr p
        /\ Reporting.cout (Reporting.step p (at_time t (Sys ret d)))
           = Reporting.cout p)
  /\ (forall p es,
        analytics_serving p -> forallb no_signal es = true ->
        Analytics.exit_status (Analytics.run p es) = None)
  /\ (forall p t1 t2 t3 t4 c c' data,
        analytics_serving p -> (0 <= c)%Z -> (0 <= c')%Z ->
        0 < String.length data <= read_limit ->
        forall p',
          p' = Analytics.run p
                 [ at_time t1 (Sys c EmptyString);
                   at_time t2 (Client c (-1) EmptyString);
                   at_time t3 (Sys c' EmptyString);
                   at_time t4 (client_received c' data) ] ->
          Analytics.sent p'
          = (Analytics.sent p
             ++ [(c', Analytics.route t4 (path_of data))])%list
          /\ Analytics.closed p' = (Analytics.closed p ++ [c; c'])%list
          /\ Analytics.cerr p' = Analytics.cerr p
          /\ analytics_serving p').
Proof.
  repeat apply conj.
  - apply analytics_accept_failed.
  - apply reporting_accept_failed.
  - apply analytics_read_failed.
  - apply reporting_read_failed_silent.
  - intros p es Hp Hes.
    destruct (analytics_run_serving es p Hp Hes) as [_ Hpc].
    unfold Analytics.exit_status. now rewrite Hpc.
  - apply analytics_serves_after_error.
Qed.

Lemma C7_connection_errors_witness :
  Analytics.step (Analytics.run Analytics.start (up friday))
    (at_time friday (Sys (-1) EmptyString))
  = Analytics.complain "Accept failed"
      (Analytics.run Analytics.start (up friday))
  /\ Reporting.step (Reporting.run Reporting.start (up friday))
       (at_time friday (Sys (-1) EmptyString))
     = Reporting.complain "Accept failed"
         (Reporting.run Reporting.start (up friday))
  /\ Analytics.step (Analytics.run Analytics.start (accepted friday))
       (at_time friday (Client 4 (-1) EmptyString))
     = Analytics.close 4
         (Analytics.set_threads []
            (Analytics.run Analytics.start (accepted friday)))
  /\ Reporting.cerr
       (Reporting.step (Reporting.run Reporting.start (accepted friday))
          (at_time friday (Sys (-1) EmptyString)))
     = []
  /\ Analytics.exit_status
       (Analytics.run (Analytics.run Analytics.start (up friday))
          [ at_time friday (Sys 4 EmptyString);
            at_time friday (Client 4 (-1) EmptyString) ])
     = None
  /\ Analytics.sent
       (Analytics.run (Analytics.run Analytics.start (up friday))
          [ at_time friday (Sys 4 EmptyString);
            at_time friday (Client 4 (-1) EmptyString);
            at_time saturday (Sys 5 EmptyString);
            at_time saturday (client_received 5 get_health) ])
     = [ (5%Z, Analytics.route saturday "/health") ].
Proof.
  destruct C7_connection_errors as (Haa & Hra & Har & Hrs & Hka & Hsa).
  repeat apply conj.
  - apply Haa; [split; reflexivity | lia].
  - apply Hra; [reflexivity | reflexivity | lia].
  - apply (Har (Analytics.run Analytics.start (accepted friday))
             friday 4%Z (-1)%Z EmptyString);
      [split; reflexivity | simpl; tauto | lia].
  - apply (proj1 (Hrs (Reporting.run Reporting.start (accepted friday))
                    friday 4%Z (-1)%Z EmptyString eq_refl ltac:(lia))).
  - apply Hka; [split; reflexivity | reflexivity].
  - apply (Hsa (Analytics.run Analytics.start (up friday))
             friday friday saturday saturday 4%Z 5%Z get_health);
      try reflexivity; try lia.
    + split; reflexivity.
    + vm_compute. lia.
Defined.

(** C8.  The Reporting Engine never reads the clock: two runs that
    differ only in the times of their events end in the same state, with
    the same responses sent, and every response is one of three constants.
    The Analytics Engine puts the current timestamp into the body of its
    [/health], [/spending-analysis], [/trends] and [/predictions]
    responses, so that these differ when the timestamps differ. *)
Theorem C8_timestamp_only_in_analytics :
  (forall es1 es2,
      map what es1 = map what es2 ->
      Reporting.run Reporting.start es1 = Reporting.run Reporting.start es2)
  /\ (forall request,
        Reporting.respond request = Reporting.handleHealthCheck
        \/ Reporting.respond request = Reporting.handleRootRequest
        \/ Reporting.respond request = Reporting.not_found)
  /\ (forall path,
        In path timestamped_paths ->
        exists before after,
          forall dt,
            body_of (Analytics.route dt path)
            = before ++ Analytics.getCurrentTimestamp dt ++ after)
  /\ (forall path t1 t2,
        In path timestamped_paths ->
        Analytics.getCurrentTimestamp t1 <> Analytics.getCurrentTimestamp t2 ->
        Analytics.route t1 path <> Analytics.route t2 path).
Proof.
  repeat apply conj.
  - intros es1 es2 H. now apply reporting_run_clock.
  - intros request. rewrite respond_cases.
    destruct (found "GET /health" request); [now left|].
    destruct (found "GET /" request); [right; now left | right; now right].
  - apply analytics_timestamp_in_body.
  - intros path t1 t2 Hin Hts E. apply Hts.
    destruct (analytics_timestamp_in_body path Hin) as (before & after & Hb).
    apply (f_equal body_of) in E. rewrite !Hb in E.
    apply append_inv_head in E. now apply append_inv_tail in E.
Qed.

Lemma C8_timestamp_only_in_analytics_witness :
  Reporting.run Reporting.start
    (accepted friday ++ [at_time friday (received get_health)])
  = Reporting.run Reporting.start
      (accepted saturday ++ [at_time saturday (received get_health)])
  /\ Analytics.route friday "/health" <> Analytics.route saturday "/health".
Proof.
  destruct C8_timestamp_only_in_analytics as (Hrun & _ & _ & Hdiff).
  split.
  - apply Hrun. reflexivity.
  - apply Hdiff.
    + simpl. tauto.
    + vm_compute. discriminate.
Defined.

(** * Beyond the specification: what else the code guarantees *)

Section TimestampFacts.

Lemma pop_newline_cons :
  forall x y r,
    Analytics.pop_newline (String x (String y r))
    = String x (Analytics.pop_newline (String y r)).
Proof. reflexivity. Qed.

Lemma pop_newline_snoc :
  forall s, Analytics.pop_newline (s ++ String LF EmptyString) = s.
Proof.
  induction s as [|x s IH].
  - reflexivity.
  - cbn [append]. destruct s as [|y s].
    + reflexivity.
    + cbn [append] in *. now rewrite pop_newline_cons, IH.
Qed.

Lemma pop_newline_keeps :
  forall dt,
    (forall s, dt <> s ++ String LF EmptyString) ->
    Analytics.pop_newline dt = dt.
Proof.
  induction dt as [|x dt IH]; intros H; [reflexivity|].
  destruct dt as [|y dt].
  - cbn [Analytics.pop_newline].
    destruct (Ascii.eqb_spec x LF) as [->|_]; [|reflexivity].
    exfalso. now apply (H EmptyString).
  - rewrite pop_newline_cons. f_equal. apply IH.
    intros s E. apply (H (String x s)). cbn [append]. now rewrite <- E.
Qed.

Lemma ends_with_snoc :
  forall c s, ends_with c (s ++ String c EmptyString) = true.
Proof.
  intros c. induction s as [|x s IH].
  - cbn. apply Ascii.eqb_refl.
  - destruct s as [|y s]; [cbn; apply Ascii.eqb_refl|]. exact IH.
Qed.

End TimestampFacts.

Section WordFacts.

Lemma skipws_only_space :
  forall ws s, only_space ws = true -> skipws (ws ++ s) = skipws s.
Proof.
  induction ws as [|c ws IH]; intros s H; [reflexivity|].
  cbn [only_space] in H. apply andb_true_iff in H. destruct H as [Hc Hws].
  cbn [append skipws]. rewrite Hc. now apply IH.
Qed.

Lemma skipws_all_space :
  forall ws, only_space ws = true -> skipws ws = EmptyString.
Proof.
  intros ws H. rewrite <- (append_nil_r ws).
  now rewrite skipws_only_space.
Qed.

Lemma only_space_boundary :
  forall ws, only_space ws = true -> at_boundary ws = true.
Proof.
  intros [|c ws] H; [reflexivity|]. cbn [only_space] in H.
  apply andb_true_iff in H. now destruct H.
Qed.

Lemma extract_leading_space :
  forall var ws s,
    only_space ws = true ->
    extract var (istringstream_of (ws ++ s))
    = extract var (istringstream_of s).
Proof.
  intros var ws s H. unfold extract, istringstream_of.
  cbn [failbit pending]. now rewrite skipws_only_space.
Qed.

Lemma parse_leading_space :
  forall ws request,
    only_space ws = true ->
    Analytics.parse (ws ++ request) = Analytics.parse request.
Proof.
  intros ws request H. unfold Analytics.parse.
  now rewrite extract_leading_space.
Qed.

Lemma extract_nothing :
  forall var ws,
    only_space ws = true ->
    extract var {| pending := ws; failbit := false |}
    = (var, {| pending := EmptyString; failbit := true |}).
Proof.
  intros var ws H. unfold extract. cbn [failbit pending].
  now rewrite skipws_all_space.
Qed.

Lemma parse_one_word :
  forall ws1 m ws2,
    only_space ws1 = true -> is_word m = true -> only_space ws2 = true ->
    Analytics.parse (ws1 ++ m ++ ws2) = (m, EmptyString, EmptyString).
Proof.
  intros ws1 m ws2 H1 Hm H2.
  rewrite parse_leading_space by assumption.
  unfold Analytics.parse.
  rewrite extract_word by (assumption || now apply only_space_boundary).
  rewrite extract_nothing by assumption.
  reflexivity.
Qed.

Lemma parse_no_word :
  forall ws,
    only_space ws = true ->
    Analytics.parse ws = (EmptyString, EmptyString, EmptyString).
Proof.
  intros ws H. unfold Analytics.parse, istringstream_of.
  rewrite extract_nothing by assumption. reflexivity.
Qed.

Lemma read_word_no_space :
  forall s, no_space (fst (read_word s)) = true.
Proof.
  induction s as [|c s IH]; [reflexivity|].
  cbn [read_word]. destruct (isspace c) eqn:Hc; [reflexivity|].
  destruct (read_word s) as [w rest]. cbn [fst no_space] in *.
  now rewrite Hc, IH.
Qed.

Lemma extract_no_space :
  forall var stream,
    no_space var = true -> no_space (fst (extract var stream)) = true.
Proof.
  intros var stream H. unfold extract.
  destruct (failbit stream); [exact H|].
  destruct (skipws (pending stream)) as [|c r]; [exact H|].
  pose proof (read_word_no_space (String c r)) as Hw.
  destruct (read_word (String c r)) as [w rest]. exact Hw.
Qed.

Lemma parse_no_space :
  forall request method path version,
    Analytics.parse request = (method, path, version) ->
    no_space method = true /\ no_space path = true
    /\ no_space version = true.
Proof.
  intros request method path version. unfold Analytics.parse.
  pose proof (extract_no_space EmptyString (istringstream_of request) eq_refl) as H1.
  destruct (extract EmptyString (istringstream_of request)) as [m s1].
  pose proof (extract_no_space EmptyString s1 eq_refl) as H2.
  destruct (extract EmptyString s1) as [p s2].
  pose proof (extract_no_space EmptyString s2 eq_refl) as H3.
  destruct (extract EmptyString s2) as [v s3].
  intros [= <- <- <-]. auto.
Qed.

Lemma no_space_no_char :
  forall c w, isspace c = true -> no_space w = true -> has_char c w = false.
Proof.
  intros c w Hc. induction w as [|x w IH]; intros H; [reflexivity|].
  cbn [no_space] in H. apply andb_true_iff in H. destruct H as [Hx Hw].
  apply negb_true_iff in Hx. cbn [has_char].
  rewrite Ascii.eqb_sym, (space_is_not x c Hx Hc). now apply IH.
Qed.

End WordFacts.

(** X1.  [getCurrentTimestamp] removes exactly one newline from the end
    of what [ctime] returns, and changes nothing when there is none. *)
Theorem X1_timestamp_strips_one_newline :
  (forall s,
      Analytics.getCurrentTimestamp (s ++ String LF EmptyString) = s)
  /\ (forall dt,
        ends_with LF dt = false -> Analytics.getCurrentTimestamp dt = dt).
Proof.
  split.
  - apply pop_newline_snoc.
  - intros dt H. apply pop_newline_keeps. intros s E.
    rewrite E, ends_with_snoc in H. discriminate.
Qed.

Lemma X1_timestamp_strips_one_newline_witness :
  Analytics.getCurrentTimestamp "Fri Oct 30 04:45:00 2026"
  = "Fri Oct 30 04:45:00 2026".
Proof.
  apply (proj2 X1_timestamp_strips_one_newline). reflexivity.
Defined.

(** X2.  White space before the request line is skipped: the Analytics
    Engine handles a request that was read whole and starts with white
    space as it handles the request without it. *)
Theorem X2_leading_space_skipped :
  forall dt ws data,
    only_space ws = true ->
    0 < String.length data ->
    String.length (ws ++ data) <= read_limit ->
    Analytics.handleClient dt (Z.of_nat (String.length (ws ++ data)))
      (ws ++ data)
    = Analytics.handleClient dt (Z.of_nat (String.length data)) data.
Proof.
  intros dt ws data Hws Hpos Hlen.
  assert (Hl := length_append ws data).
  unfold Analytics.handleClient.
  replace (Z.of_nat (String.length (ws ++ data)) <=? 0)%Z with false
    by (symmetry; apply Z.leb_gt; lia).
  replace (Z.of_nat (String.length data) <=? 0)%Z with false
    by (symmetry; apply Z.leb_gt; lia).
  rewrite !analytics_request_all by lia.
  now rewrite parse_leading_space.
Qed.

Lemma X2_leading_space_skipped_witness :
  Analytics.handleClient friday 26 (CRLF ++ get_health)
  = Analytics.handleClient friday 24 get_health.
Proof.
  apply (X2_leading_space_skipped friday CRLF get_health).
  - reflexivity.
  - vm_compute. lia.
  - vm_compute. lia.
Defined.

(** X3.  A request without a path is answered with the 404 response:
    when the text that was read is white space only, or one word with
    white space around it, the path stays empty, the printed line ends
    with the separating blank, and [handle404] is sent. *)
Theorem X3_no_path_404 :
  (forall dt ws,
      only_space ws = true ->
      0 < String.length ws <= read_limit ->
      Analytics.handleClient dt (Z.of_nat (String.length ws)) ws
      = {| Analytics.printed := ["Request:  "];
           Analytics.written := Some Analytics.handle404 |})
  /\ (forall dt ws1 method ws2,
        only_space ws1 = true -> is_word method = true ->
        only_space ws2 = true ->
        String.length (ws1 ++ method ++ ws2) <= read_limit ->
        Analytics.handleClient dt
          (Z.of_nat (String.length (ws1 ++ method ++ ws2)))
          (ws1 ++ method ++ ws2)
        = {| Analytics.printed := ["Request: " ++ method ++ " "];
             Analytics.written := Some Analytics.handle404 |}).
Proof.
  split.
  - intros dt ws Hws Hlen. unfold Analytics.handleClient.
    replace (Z.of_nat (String.length ws) <=? 0)%Z with false
      by (symmetry; apply Z.leb_gt; lia).
    rewrite analytics_request_all by assumption.
    now rewrite parse_no_word.
  - intros dt ws1 method ws2 H1 Hm H2 Hlen.
    assert (Hpos : 0 < String.length (ws1 ++ method ++ ws2)).
    { rewrite !length_append. apply word_not_empty in Hm. lia. }
    unfold Analytics.handleClient.
    replace (Z.of_nat (String.length (ws1 ++ method ++ ws2)) <=? 0)%Z
      with false by (symmetry; apply Z.leb_gt; lia).
    rewrite analytics_request_all by lia.
    now rewrite parse_one_word.
Qed.

Lemma X3_no_path_404_witness :
  Analytics.handleClient friday 2 CRLF
  = {| Analytics.printed := ["Request:  "];
       Analytics.written := Some Analytics.handle404 |}
  /\ Analytics.handleClient friday 5 ("GET" ++ CRLF)
     = {| Analytics.printed := ["Request: GET "];
          Analytics.written := Some Analytics.handle404 |}.
Proof.
  split.
  - apply (proj1 X3_no_path_404 friday CRLF); [reflexivity | vm_compute; lia].
  - apply (proj2 X3_no_path_404 friday EmptyString "GET" CRLF);
      try reflexivity. vm_compute. lia.
Defined.

(** X4.  The line [handleClient] prints for a request never contains a
    carriage return or a line feed, whatever the client sent: the method
    and the path are words. *)
Theorem X4_log_line_has_no_line_break :
  forall dt bytes_read data line,
    In line (Analytics.printed (Analytics.handleClient dt bytes_read data)) ->
    has_char LF line = false /\ has_char CR line = false.
Proof.
  intros dt bytes_read data line. unfold Analytics.handleClient.
  destruct (bytes_read <=? 0)%Z; [intros []|].
  destruct (Analytics.parse (Analytics.request_of bytes_read data))
    as [[method path] version] eqn:E.
  apply parse_no_space in E. destruct E as (Hm & Hp & _).
  cbn [Analytics.printed In]. intros [<-|[]].
  rewrite !has_char_append.
  rewrite (no_space_no_char LF method), (no_space_no_char LF path),
    (no_space_no_char CR method), (no_space_no_char CR path)
    by (assumption || reflexivity).
  split; reflexivity.
Qed.

Lemma X4_log_line_has_no_line_break_witness :
  has_char LF "Request: GET /health" = false
  /\ has_char CR "Request: GET /health" = false.
Proof.
  apply (X4_log_line_has_no_line_break friday 24 get_health).
  vm_compute. left. reflexivity.
Defined.

Section Sessions.

Lemma analytics_run_app :
  forall p es1 es2,
    Analytics.run p (es1 ++ es2) = Analytics.run (Analytics.run p es1) es2.
Proof. intros. apply fold_left_app. Qed.

Lemma reporting_run_app :
  forall p es1 es2,
    Reporting.run p (es1 ++ es2) = Reporting.run (Reporting.run p es1) es2.
Proof. intros. apply fold_left_app. Qed.

Lemma handleClient_whole :
  forall dt d,
    0 < String.length d <= read_limit ->
    Analytics.handleClient dt (Z.of_nat (String.length d)) d
    = {| Analytics.printed := [analytics_log d];
         Analytics.written := Some (Analytics.route dt (path_of d)) |}.
Proof.
  intros dt d H. unfold Analytics.handleClient.
  replace (Z.of_nat (String.length d) <=? 0)%Z with false
    by (symmetry; apply Z.leb_gt; lia).
  rewrite analytics_request_all by assumption.
  unfold analytics_log, path_of.
  now destruct (Analytics.parse d) as [[method path] version].
Qed.

(** A thread whose [read] hands over a whole request. *)
Lemma analytics_client_served :
  forall p t c d,
    analytics_serving p -> In c (Analytics.threads p) ->
    0 < String.length d <= read_limit ->
    Analytics.step p (at_time t (client_received c d))
    = Analytics.close c
        (Analytics.send c (Some (Analytics.route t (path_of d)))
           (Analytics.print [analytics_log d]
              (Analytics.set_threads
                 (Analytics.remove_first c (Analytics.threads p)) p))).
Proof.
  intros [r sfd pc th co ce se cl] t c d [Hr Hpc] Hin Hlen.
  cbn in Hr, Hpc, Hin. subst r pc. unfold at_time. analytics_unfold.
  rewrite (existsb_member c th Hin).
  rewrite handleClient_whole by assumption. reflexivity.
Qed.

Lemma analytics_accepted :
  forall p t c d,
    analytics_serving p -> (0 <= c)%Z ->
    Analytics.step p (at_time t (Sys c d))
    = Analytics.set_threads (Analytics.threads p ++ [c])%list p.
Proof.
  intros [r sfd pc th co ce se cl] t c d [Hr Hpc] Hc.
  cbn in Hr, Hpc. subst r pc. unfold at_time. analytics_unfold.
  now replace (c <? 0)%Z with false by (symmetry; apply Z.ltb_ge; lia).
Qed.

Lemma analytics_one_session :
  forall p conn,
    analytics_serving p -> analytics_conn_ok conn ->
    forall p',
      p' = Analytics.run p (analytics_session conn) ->
      Analytics.sent p' = (Analytics.sent p ++ [analytics_answer conn])%list
      /\ Analytics.closed p' = (Analytics.closed p ++ [conn_fd conn])%list
      /\ Analytics.cout p'
         = (Analytics.cout p ++ [analytics_log (conn_data conn)])%list
      /\ Analytics.cerr p' = Analytics.cerr p
      /\ analytics_serving p'.
Proof.
  intros p [[t c] d] Hp [Hc Hlen] p' ->.
  cbn [conn_fd conn_data] in Hc, Hlen.
  unfold analytics_session, Analytics.run. cbn [fold_left].
  rewrite analytics_accepted by assumption.
  rewrite analytics_client_served.
  - destruct p as [r sfd pc th co ce se cl]. destruct Hp as [Hr Hpc].
    cbn in Hr, Hpc. subst r pc. repeat split; reflexivity.
  - destruct p as [r sfd pc th co ce se cl]. exact Hp.
  - destruct p as [r sfd pc th co ce se cl]. cbn.
    apply in_or_app. right. now left.
  - assumption.
Qed.

Lemma analytics_sessions :
  forall conns p,
    analytics_serving p -> Forall analytics_conn_ok conns ->
    forall p',
      p' = Analytics.run p (flat_map analytics_session conns) ->
      Analytics.sent p'
      = (Analytics.sent p ++ map analytics_answer conns)%list
      /\ Analytics.closed p' = (Analytics.closed p ++ map conn_fd conns)%list
      /\ Analytics.cout p'
         = (Analytics.cout p
            ++ map (fun conn => analytics_log (conn_data conn)) conns)%list
      /\ Analytics.cerr p' = Analytics.cerr p
      /\ analytics_serving p'.
Proof.
  induction conns as [|conn conns IH]; intros p Hp Hok p' ->.
  - cbn [flat_map map]. unfold Analytics.run. cbn [fold_left].
    rewrite !app_nil_r. destruct Hp. repeat split; auto.
  - inversion Hok as [|? ? Hconn Hrest]; subst.
    cbn [flat_map]. rewrite analytics_run_app.
    destruct (analytics_one_session p conn Hp Hconn _ eq_refl)
      as (Hs & Hc & Ho & He & Hserving).
    destruct (IH _ Hserving Hrest _ eq_refl) as (Hs' & Hc' & Ho' & He' & Hp').
    rewrite Hs', Hc', Ho', He', Hs, Hc, Ho, He.
    cbn [map]. rewrite <- !app_assoc. destruct Hp'. repeat split; auto.
Qed.

Lemma reporting_one_session :
  forall p conn,
    Reporting.running p = true -> Reporting.at_pc p = Reporting.AtAccept ->
    reporting_conn_ok conn ->
    forall p',
      p' = Reporting.run p (reporting_session conn) ->
      Reporting.sent p' = (Reporting.sent p ++ [reporting_answer conn])%list
      /\ Reporting.closed p' = (Reporting.closed p ++ [conn_fd conn])%list
      /\ Reporting.cout p' = Reporting.cout p
      /\ Reporting.cerr p' = Reporting.cerr p
      /\ Reporting.running p' = true
      /\ Reporting.at_pc p' = Reporting.AtAccept.
Proof.
  intros [r sfd pc co ce se cl] [[t c] d] Hr Hpc [Hc Hlen] p' ->.
  cbn [conn_fd conn_data] in Hc, Hlen. cbn in Hr, Hpc. subst r pc.
  unfold reporting_session, at_time.
  reporting_step.
  replace (c <? 0)%Z with false by (symmetry; apply Z.ltb_ge; lia).
  reporting_step.
  rewrite reporting_request_all by assumption.
  unfold Reporting.run. cbn [fold_left]. repeat split; reflexivity.
Qed.

Lemma reporting_sessions :
  forall conns p,
    Reporting.running p = true -> Reporting.at_pc p = Reporting.AtAccept ->
    Forall reporting_conn_ok conns ->
    forall p',
      p' = Reporting.run p (flat_map reporting_session conns) ->
      Reporting.sent p'
      = (Reporting.sent p ++ map reporting_answer conns)%list
      /\ Reporting.closed p' = (Reporting.closed p ++ map conn_fd conns)%list
      /\ Reporting.cout p' = Reporting.cout p
      /\ Reporting.cerr p' = Reporting.cerr p
      /\ Reporting.running p' = true
      /\ Reporting.at_pc p' = Reporting.AtAccept.
Proof.
  induction conns as [|conn conns IH]; intros p Hr Hpc Hok p' ->.
  - cbn [flat_map map]. unfold Reporting.run. cbn [fold_left].
    rewrite !app_nil_r. repeat split; auto.
  - inversion Hok as [|? ? Hconn Hrest]; subst.
    cbn [flat_map]. rewrite reporting_run_app.
    destruct (reporting_one_session p conn Hr Hpc Hconn _ eq_refl)
      as (Hs & Hc & Ho & He & Hr1 & Hpc1).
    destruct (IH _ Hr1 Hpc1 Hrest _ eq_refl)
      as (Hs' & Hc' & Ho' & He' & Hr2 & Hpc2).
    rewrite Hs', Hc', Ho', He', Hs, Hc, Ho, He.
    cbn [map]. rewrite <- !app_assoc. repeat split; auto.
Qed.

End Sessions.

Section Setup.

Lemma port_text_8080 : port_text = "8080".
Proof. vm_compute. reflexivity. Qed.

Lemma analytics_step_setup_inv :
  forall p e, analytics_setup_inv p -> analytics_setup_inv (Analytics.step p e).
Proof.
  intros [r sfd pc th co ce se cl] [t [sig|ret d|c ret d]] H;
    unfold analytics_setup_inv, analytics_quiet in *; cbn in H.
  - (* a signal: exit with 0 *)
    destruct pc; try exact H; analytics_unfold;
      destruct (0 <? sfd)%Z; cbn; discriminate.
  - (* the main thread *)
    destruct pc; try exact H.
    + destruct H as [(-> & -> & -> & ->) ->]. analytics_unfold.
      destruct (ret =? 0)%Z; cbn; [setup_failed | repeat split].
    + destruct H as [(-> & -> & -> & ->) ->]. analytics_unfold.
      destruct (ret =? 0)%Z; cbn; [repeat split | setup_failed].
    + destruct H as [(-> & -> & -> & ->) ->]. analytics_unfold.
      rewrite port_text_8080.
      destruct (ret <? 0)%Z; cbn; [setup_failed | repeat split].
    + destruct H as [(-> & -> & -> & ->) ->]. analytics_unfold.
      destruct (ret <? 0)%Z; cbn; [setup_failed|].
      destruct r; cbn; [exact I | discriminate].
    + analytics_unfold.
      destruct (ret <? 0)%Z; destruct r; cbn; try exact I; discriminate.
  - (* a client thread *)
    destruct pc; try exact H.
    + destruct H as [(-> & -> & -> & ->) ->]. repeat split.
    + destruct H as [(-> & -> & -> & ->) ->]. repeat split.
    + destruct H as [(-> & -> & -> & ->) ->]. repeat split.
    + destruct H as [(-> & -> & -> & ->) ->]. repeat split.
    + analytics_unfold. destruct (existsb (Z.eqb c) th); [|exact I].
      destruct (Analytics.written (Analytics.handleClient t ret d)); exact I.
Qed.

Lemma reporting_step_setup_inv :
  forall p e, reporting_setup_inv p -> reporting_setup_inv (Reporting.step p e).
Proof.
  intros [r sfd pc co ce se cl] [t [sig|ret d|c ret d]] H;
    unfold reporting_setup_inv, reporting_quiet in *; cbn in H.
  - destruct pc; try exact H; reporting_unfold;
      destruct (0 <? sfd)%Z; cbn; discriminate.
  - destruct pc; try exact H.
    + destruct H as [(-> & -> & ->) ->]. reporting_unfold.
      destruct (ret =? 0)%Z; cbn; [setup_failed | repeat split].
    + destruct H as [(-> & -> & ->) ->]. reporting_unfold.
      rewrite port_text_8080.
      destruct (ret <? 0)%Z; cbn; [setup_failed | repeat split].
    + destruct H as [(-> & -> & ->) ->]. reporting_unfold.
      destruct (ret <? 0)%Z; cbn; [setup_failed|].
      destruct r; cbn; [exact I | discriminate].
    + reporting_unfold.
      destruct (ret <? 0)%Z; destruct r; cbn; try exact I; discriminate.
    + reporting_unfold. destruct r; cbn; [exact I | discriminate].
  - destruct pc; exact H.
Qed.

Lemma analytics_run_setup_inv :
  forall es p,
    analytics_setup_inv p -> analytics_setup_inv (Analytics.run p es).
Proof.
  induction es as [|e es IH]; intros p H; [exact H|].
  apply IH. now apply analytics_step_setup_inv.
Qed.

Lemma reporting_run_setup_inv :
  forall es p,
    reporting_setup_inv p -> reporting_setup_inv (Reporting.run p es).
Proof.
  induction es as [|e es IH]; intros p H; [exact H|].
  apply IH. now apply reporting_step_setup_inv.
Qed.

End Setup.

(** X8.  A process that exits with status 1 never served anybody: it sent
    nothing, closed no descriptor, printed nothing on the output stream,
    and wrote exactly one line, one of the setup messages, on the error
    stream. *)
Theorem X8_exit_1_never_served :
  (forall es,
      Analytics.exit_status (Analytics.run Analytics.start es) = Some 1%Z ->
      Analytics.sent (Analytics.run Analytics.start es) = []
      /\ Analytics.closed (Analytics.run Analytics.start es) = []
      /\ Analytics.cout (Analytics.run Analytics.start es) = []
      /\ exists msg,
          Analytics.cerr (Analytics.run Analytics.start es) = [msg]
          /\ In msg analytics_setup_errors)
  /\ (forall es,
        Reporting.exit_status (Reporting.run Reporting.start es) = Some 1%Z ->
        Reporting.sent (Reporting.run Reporting.start es) = []
        /\ Reporting.closed (Reporting.run Reporting.start es) = []
        /\ Reporting.cout (Reporting.run Reporting.start es) = []
        /\ exists msg,
            Reporting.cerr (Reporting.run Reporting.start es) = [msg]
            /\ In msg reporting_setup_errors).
Proof.
  split.
  - intros es H.
    assert (Hinv : analytics_setup_inv Analytics.start)
      by (repeat split; reflexivity).
    apply (analytics_run_setup_inv es) in Hinv.
    unfold analytics_setup_inv, Analytics.exit_status in *.
    destruct (Analytics.at_pc (Analytics.run Analytics.start es));
      try discriminate.
    injection H as ->.
    destruct (Hinv eq_refl) as ((Hs & Hc & Ho & _) & Hmsg). auto.
  - intros es H.
    assert (Hinv : reporting_setup_inv Reporting.start)
      by (repeat split; reflexivity).
    apply (reporting_run_setup_inv es) in Hinv.
    unfold reporting_setup_inv, Reporting.exit_status in *.
    destruct (Reporting.at_pc (Reporting.run Reporting.start es));
      try discriminate.
    injection H as ->.
    destruct (Hinv eq_refl) as ((Hs & Hc & Ho) & Hmsg). auto.
Qed.

Lemma X8_exit_1_never_served_witness :
  Analytics.sent
    (Analytics.run Analytics.start
       [ sys friday 3; sys friday 0; sys friday (-1) ]) = []
  /\ Analytics.closed
       (Analytics.run Analytics.start
          [ sys friday 3; sys friday 0; sys friday (-1) ]) = []
  /\ Analytics.cout
       (Analytics.run Analytics.start
          [ sys friday 3; sys friday 0; sys friday (-1) ]) = []
  /\ (exists msg,
        Analytics.cerr
          (Analytics.run Analytics.start
             [ sys friday 3; sys friday 0; sys friday (-1) ]) = [msg]
        /\ In msg analytics_setup_errors)
  /\ Reporting.sent
       (Reporting.run Reporting.start
          [ sys friday 3; sys friday 0; sys friday 0; sys friday (-1) ]) = []
  /\ Reporting.closed
       (Reporting.run Reporting.start
          [ sys friday 3; sys friday 0; sys friday 0; sys friday (-1) ]) = []
  /\ Reporting.cout
       (Reporting.run Reporting.start
          [ sys friday 3; sys friday 0; sys friday 0; sys friday (-1) ]) = []
  /\ exists msg,
      Reporting.cerr
        (Reporting.run Reporting.start
           [ sys friday 3; sys friday 0; sys friday 0; sys friday (-1) ])
      = [msg]
      /\ In msg reporting_setup_errors.
Proof.
  destruct X8_exit_1_never_served as [Ha Hr].
  destruct (Ha [ sys friday 3; sys friday 0; sys friday (-1) ] eq_refl)
    as (H1 & H2 & H3 & H4).
  destruct (Hr [ sys friday 3; sys friday 0; sys friday 0; sys friday (-1) ]
              eq_refl) as (H5 & H6 & H7 & H8).
  repeat split; assumption.
Defined.

(** X6.  The Reporting Engine serves connections one after the other:
    from a running server waiting in [accept], any sequence of
    connections, each accepted and then read whole, is answered in order,
    each connection with the response to its own request and then closed;
    nothing is printed. *)
Theorem X6_reporting_serves_in_order :
  forall conns p,
    Reporting.running p = true -> Reporting.at_pc p = Reporting.AtAccept ->
    Forall reporting_conn_ok conns ->
    forall p',
      p' = Reporting.run p (flat_map reporting_session conns) ->
      Reporting.sent p'
      = (Reporting.sent p ++ map reporting_answer conns)%list
      /\ Reporting.closed p' = (Reporting.closed p ++ map conn_fd conns)%list
      /\ Reporting.cout p' = Reporting.cout p
      /\ Reporting.cerr p' = Reporting.cerr p
      /\ Reporting.running p' = true
      /\ Reporting.at_pc p' = Reporting.AtAccept.
Proof. exact reporting_sessions. Qed.

Lemma X6_reporting_serves_in_order_witness :
  Reporting.sent
    (Reporting.run (Reporting.run Reporting.start (up friday))
       (flat_map reporting_session
          [ (friday, 4%Z, get_health); (saturday, 4%Z, post_nope) ]))
  = [ (4%Z, Reporting.handleHealthCheck); (4%Z, Reporting.not_found) ].
Proof.
  refine (proj1 (X6_reporting_serves_in_order
                   [ (friday, 4%Z, get_health); (saturday, 4%Z, post_nope) ]
                   (Reporting.run Reporting.start (up friday))
                   eq_refl eq_refl _ _ eq_refl)).
  repeat (constructor;
          [split; [cbn [conn_fd]; lia | vm_compute; lia]|]).
  constructor.
Defined.

(** X7.  The Analytics Engine, connection by connection: from a running
    server, any sequence of connections, each accepted and then read whole
    by its thread, is answered in order, each connection with the response
    to its own request at the time of its [read]; each socket is closed,
    one line per request is printed and nothing is written on the error
    stream. *)
Theorem X7_analytics_serves_in_order :
  forall conns p,
    analytics_serving p -> Forall analytics_conn_ok conns ->
    forall p',
      p' = Analytics.run p (flat_map analytics_session conns) ->
      Analytics.sent p'
      = (Analytics.sent p ++ map analytics_answer conns)%list
      /\ Analytics.closed p' = (Analytics.closed p ++ map conn_fd conns)%list
      /\ Analytics.cout p'
         = (Analytics.cout p
            ++ map (fun conn => analytics_log (conn_data conn)) conns)%list
      /\ Analytics.cerr p' = Analytics.cerr p
      /\ analytics_serving p'.
Proof. exact analytics_sessions. Qed.

Lemma X7_analytics_serves_in_order_witness :
  Analytics.sent
    (Analytics.run (Analytics.run Analytics.start (up friday))
       (flat_map analytics_session
          [ (friday, 4%Z, get_health); (saturday, 4%Z, get_nope) ]))
  = [ (4%Z, Analytics.route friday "/health");
      (4%Z, Analytics.handle404) ].
Proof.
  refine (proj1 (X7_analytics_serves_in_order
                   [ (friday, 4%Z, get_health); (saturday, 4%Z, get_nope) ]
                   (Analytics.run Analytics.start (up friday))
                   (conj eq_refl eq_refl) _ _ eq_refl)).
  repeat (constructor;
          [split; [cbn [conn_fd]; lia | vm_compute; lia]|]).
  constructor.
Defined.

Section Shutdown.

Lemma analytics_step_server_fd :
  forall p e,
    analytics_serving p -> no_signal e = true ->
    Analytics.server_fd (Analytics.step p e) = Analytics.server_fd p.
Proof.
  intros [r fd pc th co ce se cl] [t [sig|ret d|c ret d]] [Hr Hpc] He;
    cbn in Hr, Hpc; subst r pc; try discriminate; analytics_unfold.
  - destruct (ret <? 0)%Z; reflexivity.
  - destruct (existsb (Z.eqb c) th); [|reflexivity].
    destruct (Analytics.written (Analytics.handleClient t ret d)); reflexivity.
Qed.

Lemma reporting_step_server_fd :
  forall p e,
    reporting_serving p -> no_signal e = true ->
    Reporting.server_fd (Reporting.step p e) = Reporting.server_fd p.
Proof.
  intros [r fd pc co ce se cl] [t [sig|ret d|c ret d]] [Hr Hpc] He;
    cbn in Hr, Hpc; subst r; try discriminate.
  - destruct Hpc as [->|[c ->]]; reporting_unfold.
    + destruct (ret <? 0)%Z; reflexivity.
    + reflexivity.
  - destruct Hpc as [->|[c' ->]]; reflexivity.
Qed.

Lemma analytics_run_server_fd :
  forall es p,
    analytics_serving p -> forallb no_signal es = true ->
    Analytics.server_fd (Analytics.run p es) = Analytics.server_fd p.
Proof.
  induction es as [|e es IH]; intros p Hp Hes; [reflexivity|].
  cbn [forallb] in Hes. apply andb_true_iff in Hes. destruct Hes as [He Hes].
  unfold Analytics.run in *. cbn [fold_left].
  rewrite IH by (auto using analytics_step_serving).
  now apply analytics_step_server_fd.
Qed.

Lemma reporting_run_server_fd :
  forall es p,
    reporting_serving p -> forallb no_signal es = true ->
    Reporting.server_fd (Reporting.run p es) = Reporting.server_fd p.
Proof.
  induction es as [|e es IH]; intros p Hp Hes; [reflexivity|].
  cbn [forallb] in Hes. apply andb_true_iff in Hes. destruct Hes as [He Hes].
  unfold Reporting.run in *. cbn [fold_left].
  rewrite IH by (auto using reporting_step_serving).
  now apply reporting_step_server_fd.
Qed.

(** The setup that succeeds. *)
Lemma analytics_setup_ok :
  forall t1 t2 t3 t4 s b l,
    (s <> 0)%Z -> (0 <= b)%Z -> (0 <= l)%Z ->
    analytics_serving
      (Analytics.run Analytics.start
         [ sys t1 s; sys t2 0; sys t3 b; sys t4 l ])
    /\ Analytics.server_fd
         (Analytics.run Analytics.start
            [ sys t1 s; sys t2 0; sys t3 b; sys t4 l ]) = s.
Proof.
  intros t1 t2 t3 t4 s b l Hs Hb Hl.
  analytics_step.
  replace (s =? 0)%Z with false by (symmetry; apply Z.eqb_neq; lia).
  analytics_step. cbn [Z.eqb negb].
  analytics_step.
  replace (b <? 0)%Z with false by (symmetry; apply Z.ltb_ge; lia).
  analytics_step.
  replace (l <? 0)%Z with false by (symmetry; apply Z.ltb_ge; lia).
  unfold Analytics.run. cbn [fold_left]. repeat split.
Qed.

Lemma reporting_setup_ok :
  forall t1 t2 t3 t4 s o b l,
    (s <> 0)%Z -> (0 <= b)%Z -> (0 <= l)%Z ->
    reporting_serving
      (Reporting.run Reporting.start
         [ sys t1 s; sys t2 o; sys t3 b; sys t4 l ])
    /\ Reporting.server_fd
         (Reporting.run Reporting.start
            [ sys t1 s; sys t2 o; sys t3 b; sys t4 l ]) = s.
Proof.
  intros t1 t2 t3 t4 s o b l Hs Hb Hl.
  reporting_step.
  replace (s =? 0)%Z with false by (symmetry; apply Z.eqb_neq; lia).
  reporting_step. reporting_step.
  replace (b <? 0)%Z with false by (symmetry; apply Z.ltb_ge; lia).
  reporting_step.
  replace (l <? 0)%Z with false by (symmetry; apply Z.ltb_ge; lia).
  unfold Reporting.run. cbn [fold_left]. split; [split|]; cbn; auto.
Qed.

Lemma analytics_signal_state :
  forall p t sig,
    analytics_serving p -> (0 < Analytics.server_fd p)%Z ->
    forall p',
      p' = Analytics.step p (at_time t (Signal sig)) ->
      Analytics.exit_status p' = Some 0%Z
      /\ Analytics.closed p'
         = (Analytics.closed p ++ [Analytics.server_fd p])%list
      /\ Analytics.cout p' = (Analytics.cout p ++ [analytics_goodbye])%list
      /\ Analytics.sent p' = Analytics.sent p
      /\ Analytics.cerr p' = Analytics.cerr p
      /\ Analytics.threads p' = Analytics.threads p
      /\ Analytics.running p' = false.
Proof.
  intros [r fd pc th co ce se cl] t sig [Hr Hpc] Hfd p' ->.
  cbn in Hr, Hpc, Hfd. subst r pc.
  unfold at_time, Analytics.step, Analytics.signalHandler,
    Analytics.set_running.
  cbn [Analytics.at_pc what]. analytics_unfold.
  replace (0 <? fd)%Z with true by (symmetry; apply Z.ltb_lt; lia).
  repeat split.
Qed.

Lemma reporting_signal_state :
  forall p t sig,
    reporting_serving p -> (0 < Reporting.server_fd p)%Z ->
    forall p',
      p' = Reporting.step p (at_time t (Signal sig)) ->
      Reporting.exit_status p' = Some 0%Z
      /\ Reporting.closed p'
         = (Reporting.closed p ++ [Reporting.server_fd p])%list
      /\ Reporting.cout p' = (Reporting.cout p ++ [reporting_goodbye])%list
      /\ Reporting.sent p' = Reporting.sent p
      /\ Reporting.cerr p' = Reporting.cerr p
      /\ Reporting.running p' = false.
Proof.
  intros [r fd pc co ce se cl] t sig [Hr Hpc] Hfd p' ->.
  cbn in Hr, Hpc, Hfd. subst r.
  unfold at_time, Reporting.step, Reporting.signalHandler,
    Reporting.set_running.
  destruct Hpc as [->|[c ->]]; cbn [Reporting.at_pc what]; reporting_unfold;
    replace (0 <? fd)%Z with true by (symmetry; apply Z.ltb_lt; lia);
    repeat split.
Qed.

End Shutdown.

Section Answered.

Lemma analytics_step_answered_closed :
  forall p e,
    analytics_answered_closed p ->
    analytics_answered_closed (Analytics.step p e).
Proof.
  intros [r fd pc th co ce se cl] [t [sig|ret d|c ret d]] [Hin Hlen];
    unfold analytics_answered_closed in *; cbn in Hin, Hlen.
  - destruct pc; try (split; assumption);
      unfold Analytics.step, Analytics.signalHandler, Analytics.set_running;
      cbn [Analytics.at_pc what]; analytics_unfold;
      (destruct (0 <? fd)%Z; cbn;
       [ split; [intros; apply in_or_app; left; eauto
                | rewrite length_app; cbn; lia]
       | split; assumption ]).
  - destruct pc; try (split; assumption); analytics_unfold;
      repeat match goal with
             | |- context [if ?b then _ else _] => destruct b
             end; cbn; split; assumption.
  - destruct pc; try (split; assumption); analytics_unfold;
      (destruct (existsb (Z.eqb c) th); [|split; assumption]);
      (destruct (Analytics.written (Analytics.handleClient t ret d)); cbn;
       [ split;
         [ intros fd' r' H; apply in_app_or in H; apply in_or_app;
           destruct H as [H|[H|[]]];
           [ left; eauto | right; left; congruence ]
         | rewrite !length_app; cbn; lia ]
       | split;
         [ intros; apply in_or_app; left; eauto
         | rewrite length_app; cbn; lia ] ]).
Qed.

Lemma reporting_step_closed_sent :
  forall p e,
    no_signal e = true ->
    Reporting.closed p = map fst (Reporting.sent p) ->
    Reporting.closed (Reporting.step p e)
    = map fst (Reporting.sent (Reporting.step p e)).
Proof.
  intros [r fd pc co ce se cl] [t [sig|ret d|c ret d]] He H;
    cbn in H; try discriminate.
  - destruct pc; try exact H; reporting_unfold;
      repeat match goal with
             | |- context [if ?b then _ else _] => destruct b
             end; cbn; try exact H.
    all: rewrite map_app; cbn; now rewrite H.
  - destruct pc; exact H.
Qed.

Lemma analytics_run_answered_closed :
  forall es p,
    analytics_answered_closed p ->
    analytics_answered_closed (Analytics.run p es).
Proof.
  induction es as [|e es IH]; intros p H; [exact H|].
  apply IH. now apply analytics_step_answered_closed.
Qed.

Lemma reporting_run_closed_sent :
  forall es p,
    forallb no_signal es = true ->
    Reporting.closed p = map fst (Reporting.sent p) ->
    Reporting.closed (Reporting.run p es)
    = map fst (Reporting.sent (Reporting.run p es)).
Proof.
  induction es as [|e es IH]; intros p Hes H; [exact H|].
  cbn [forallb] in Hes. apply andb_true_iff in Hes. destruct Hes as [He Hes].
  apply IH; [assumption|]. now apply reporting_step_closed_sent.
Qed.

End Answered.

(** X9.  Shutdown: when the setup succeeded with listening socket [s]
    above zero, a SIGINT or SIGTERM that arrives later, whatever happened in
    between, makes the process print its shutdown line, close [s] and
    nothing else, and exit with status 0; client sockets still open are
    not closed and nothing more is sent. *)
Theorem X9_shutdown_closes_listening_socket :
  (forall t1 t2 t3 t4 s b l es t sig,
      (0 < s)%Z -> (0 <= b)%Z -> (0 <= l)%Z ->
      forallb no_signal es = true ->
      forall q p',
        q = Analytics.run Analytics.start
              ([ sys t1 s; sys t2 0; sys t3 b; sys t4 l ] ++ es) ->
        p' = Analytics.step q (at_time t (Signal sig)) ->
        Analytics.exit_status p' = Some 0%Z
        /\ Analytics.closed p' = (Analytics.closed q ++ [s])%list
        /\ Analytics.cout p' = (Analytics.cout q ++ [analytics_goodbye])%list
        /\ Analytics.sent p' = Analytics.sent q
        /\ Analytics.cerr p' = Analytics.cerr q
        /\ Analytics.threads p' = Analytics.threads q
        /\ Analytics.running p' = false)
  /\ (forall t1 t2 t3 t4 s o b l es t sig,
        (0 < s)%Z -> (0 <= b)%Z -> (0 <= l)%Z ->
        forallb no_signal es = true ->
        forall q p',
          q = Reporting.run Reporting.start
                ([ sys t1 s; sys t2 o; sys t3 b; sys t4 l ] ++ es) ->
          p' = Reporting.step q (at_time t (Signal sig)) ->
          Reporting.exit_status p' = Some 0%Z
          /\ Reporting.closed p' = (Reporting.closed q ++ [s])%list
          /\ Reporting.cout p' = (Reporting.cout q ++ [reporting_goodbye])%list
          /\ Reporting.sent p' = Reporting.sent q
          /\ Reporting.cerr p' = Reporting.cerr q
          /\ Reporting.running p' = false).
Proof.
  split.
  - intros t1 t2 t3 t4 s b l es t sig Hs Hb Hl Hes q p' -> ->.
    rewrite analytics_run_app.
    destruct (analytics_setup_ok t1 t2 t3 t4 s b l ltac:(lia) Hb Hl)
      as [Hup Hfd].
    pose proof (analytics_run_serving es _ Hup Hes) as Hq.
    pose proof (analytics_run_server_fd es _ Hup Hes) as Hfdq.
    rewrite Hfd in Hfdq.
    assert (Hpos : (0 < Analytics.server_fd
                         (Analytics.run
                            (Analytics.run Analytics.start
                               [sys t1 s; sys t2 0; sys t3 b; sys t4 l])
                            es))%Z) by (rewrite Hfdq; exact Hs).
    pose proof (analytics_signal_state _ t sig Hq Hpos _ eq_refl) as H.
    rewrite Hfdq in H. exact H.
  - intros t1 t2 t3 t4 s o b l es t sig Hs Hb Hl Hes q p' -> ->.
    rewrite reporting_run_app.
    destruct (reporting_setup_ok t1 t2 t3 t4 s o b l ltac:(lia) Hb Hl)
      as [Hup Hfd].
    pose proof (reporting_run_serving es _ Hup Hes) as Hq.
    pose proof (reporting_run_server_fd es _ Hup Hes) as Hfdq.
    rewrite Hfd in Hfdq.
    assert (Hpos : (0 < Reporting.server_fd
                         (Reporting.run
                            (Reporting.run Reporting.start
                               [sys t1 s; sys t2 o; sys t3 b; sys t4 l])
                            es))%Z) by (rewrite Hfdq; exact Hs).
    pose proof (reporting_signal_state _ t sig Hq Hpos _ eq_refl) as H.
    rewrite Hfdq in H. exact H.
Qed.

Lemma X9_shutdown_closes_listening_socket_witness :
  Analytics.closed
    (Analytics.step
       (Analytics.run Analytics.start
          (up friday ++ [ sys friday 4; sys friday 5 ]))
       (at_time saturday (Signal SIGTERM)))
  = [3%Z]
  /\ Reporting.closed
       (Reporting.step
          (Reporting.run Reporting.start
             (up friday
              ++ [ sys friday 4; at_time friday (received get_health);
                   sys friday 5 ]))
          (at_time saturday (Signal SIGINT)))
     = [4%Z; 3%Z].
Proof.
  split.
  - refine (proj1 (proj2 (proj1 X9_shutdown_closes_listening_socket
             friday friday friday friday 3%Z 0%Z 0%Z
             [ sys friday 4; sys friday 5 ] saturday SIGTERM
             _ _ _ eq_refl _ _ eq_refl eq_refl))); lia.
  - refine (proj1 (proj2 (proj2 X9_shutdown_closes_listening_socket
             friday friday friday friday 3%Z 0%Z 0%Z 0%Z
             [ sys friday 4; at_time friday (received get_health);
               sys friday 5 ] saturday SIGINT
             _ _ _ eq_refl _ _ eq_refl eq_refl))); lia.
Defined.

(** X10.  What the error stream says when [socket] fails.  A [socket]
    that returns 0 is reported as [Socket creation failed].  A [socket]
    that returns a negative number is not: the Analytics Engine goes on and
    reports the [setsockopt] that fails next, the Reporting Engine the
    [bind]; both exit with status 1. *)
Theorem X10_socket_failure_diagnostics :
  (forall t es,
      Analytics.cerr (Analytics.run Analytics.start (sys t 0 :: es))
      = [ "Socket creation failed" ])
  /\ (forall t1 t2 s o es,
        (s < 0)%Z -> (o <> 0)%Z ->
        Analytics.cerr
          (Analytics.run Analytics.start (sys t1 s :: sys t2 o :: es))
        = [ "Setsockopt failed" ]
        /\ Analytics.server_fd
             (Analytics.run Analytics.start (sys t1 s :: sys t2 o :: es))
           = s)
  /\ (forall t es,
        Reporting.cerr (Reporting.run Reporting.start (sys t 0 :: es))
        = [ "Socket creation failed" ])
  /\ (forall t1 t2 t3 s o b es,
        (s < 0)%Z -> (b < 0)%Z ->
        Reporting.cerr
          (Reporting.run Reporting.start
             (sys t1 s :: sys t2 o :: sys t3 b :: es))
        = [ "Bind failed on port 8080" ]
        /\ Reporting.server_fd
             (Reporting.run Reporting.start
                (sys t1 s :: sys t2 o :: sys t3 b :: es))
           = s).
Proof.
  repeat apply conj.
  - intros t es. analytics_step. cbn [Z.eqb].
    rewrite (analytics_run_exited es _ 1%Z) by reflexivity. reflexivity.
  - intros t1 t2 s o es Hs Ho. analytics_step.
    replace (s =? 0)%Z with false by (symmetry; apply Z.eqb_neq; lia).
    analytics_step.
    replace (o =? 0)%Z with false by (symmetry; apply Z.eqb_neq; lia).
    cbn [negb].
    rewrite (analytics_run_exited es _ 1%Z) by reflexivity. split; reflexivity.
  - intros t es. reporting_step. cbn [Z.eqb].
    rewrite (reporting_run_exited es _ 1%Z) by reflexivity. reflexivity.
  - intros t1 t2 t3 s o b es Hs Hb. reporting_step.
    replace (s =? 0)%Z with false by (symmetry; apply Z.eqb_neq; lia).
    reporting_step. reporting_step.
    replace (b <? 0)%Z with true by (symmetry; apply Z.ltb_lt; lia).
    rewrite (reporting_run_exited es _ 1%Z) by reflexivity.
    rewrite port_text_8080. split; reflexivity.
Qed.

Lemma X10_socket_failure_diagnostics_witness :
  Analytics.cerr
    (Analytics.run Analytics.start [ sys friday (-1); sys friday (-1) ])
  = [ "Setsockopt failed" ]
  /\ Reporting.cerr
       (Reporting.run Reporting.start
          [ sys friday (-1); sys friday (-1); sys friday (-1) ])
     = [ "Bind failed on port 8080" ].
Proof.
  destruct X10_socket_failure_diagnostics as (_ & Ha & _ & Hr).
  split.
  - apply Ha; lia.
  - apply Hr; lia.
Defined.

(** X11.  No connection is kept open after its response.  In every run
    of the Analytics Engine each socket that was sent a response has been
    closed, and there are at least as many closes as responses.  In every
    run of the Reporting Engine without a signal the closed descriptors are
    exactly the sockets that were sent a response, in the same order. *)
Theorem X11_answered_sockets_are_closed :
  (forall es fd r,
      In (fd, r) (Analytics.sent (Analytics.run Analytics.start es)) ->
      In fd (Analytics.closed (Analytics.run Analytics.start es)))
  /\ (forall es,
        length (Analytics.sent (Analytics.run Analytics.start es))
        <= length (Analytics.closed (Analytics.run Analytics.start es)))
  /\ (forall es,
        forallb no_signal es = true ->
        Reporting.closed (Reporting.run Reporting.start es)
        = map fst (Reporting.sent (Reporting.run Reporting.start es))).
Proof.
  assert (Ha : forall es,
             analytics_answered_closed (Analytics.run Analytics.start es)).
  { intros es. apply analytics_run_answered_closed.
    split; [intros fd r [] | reflexivity]. }
  repeat apply conj.
  - intros es. apply (Ha es).
  - intros es. apply (Ha es).
  - intros es Hes. now apply reporting_run_closed_sent.
Qed.

Lemma X11_answered_sockets_are_closed_witness :
  In 4%Z
    (Analytics.closed
       (Analytics.run Analytics.start
          (up friday
           ++ [ sys friday 4; at_time friday (client_received 4 get_health) ])))
  /\ Reporting.closed
       (Reporting.run Reporting.start
          (up friday ++ [ sys friday 4; at_time friday (received get_health) ]))
     = map fst
         (Reporting.sent
            (Reporting.run Reporting.start
               (up friday
                ++ [ sys friday 4; at_time friday (received get_health) ]))).
Proof.
  destruct X11_answered_sockets_are_closed as (Hin & _ & Heq).
  split.
  - apply (Hin _ 4%Z (Analytics.route friday "/health")).
    vm_compute. left. reflexivity.
  - apply Heq. reflexivity.
Defined.

Section Accepts.

Lemma analytics_accepts :
  forall t cs p,
    analytics_serving p -> Forall (fun c => (0 <= c)%Z) cs ->
    forall p',
      p' = Analytics.run p (map (accept_at t) cs) ->
      Analytics.threads p' = (Analytics.threads p ++ cs)%list
      /\ Analytics.sent p' = Analytics.sent p
      /\ Analytics.closed p' = Analytics.closed p
      /\ Analytics.cout p' = Analytics.cout p
      /\ Analytics.cerr p' = Analytics.cerr p
      /\ analytics_serving p'.
Proof.
  intros t. induction cs as [|c cs IH]; intros p Hp Hcs p' ->.
  - cbn [map]. unfold Analytics.run. cbn [fold_left].
    rewrite app_nil_r. destruct Hp. repeat split; auto.
  - inversion Hcs as [|? ? Hc Hrest]; subst.
    cbn [map]. unfold Analytics.run. cbn [fold_left].
    fold (Analytics.run (Analytics.step p (accept_at t c))
            (map (accept_at t) cs)).
    unfold accept_at at 1 3 5 7 9 11.
    rewrite analytics_accepted by assumption.
    assert (Hp1 : analytics_serving
                    (Analytics.set_threads (Analytics.threads p ++ [c]) p)).
    { destruct p. destruct Hp. split; assumption. }
    destruct (IH _ Hp1 Hrest _ eq_refl) as (Ht & Hs & Hc' & Ho & He & Hp').
    rewrite Ht, Hs, Hc', Ho, He.
    destruct p; cbn. rewrite <- app_assoc. destruct Hp'.
    repeat split; auto.
Qed.

Lemma c_str_stops_at_nul :
  forall a b, c_str (a ++ String NUL b) = c_str a.
Proof.
  intros a b. rewrite c_str_append.
  destruct (has_char NUL a) eqn:H; [reflexivity|].
  cbn [c_str]. rewrite Ascii.eqb_refl, append_nil_r.
  symmetry. now apply c_str_no_nul.
Qed.

End Accepts.

(** X12.  The result of [setsockopt].  The Analytics Engine treats any
    result other than zero as fatal: it writes [Setsockopt failed] and
    exits with status 1.  The Reporting Engine does not look at it: with
    [socket], [bind] and [listen] successful it comes up, prints its one
    line and waits in [accept], whatever [setsockopt] returned. *)
Theorem X12_setsockopt_result :
  (forall t1 t2 s o es,
      (s <> 0)%Z -> (o <> 0)%Z ->
      Analytics.exit_status
        (Analytics.run Analytics.start (sys t1 s :: sys t2 o :: es))
      = Some 1%Z
      /\ Analytics.cerr
           (Analytics.run Analytics.start (sys t1 s :: sys t2 o :: es))
         = [ "Setsockopt failed" ])
  /\ (forall t1 t2 t3 t4 s o b l,
        (s <> 0)%Z -> (0 <= b)%Z -> (0 <= l)%Z ->
        forall p,
          p = Reporting.run Reporting.start
                [ sys t1 s; sys t2 o; sys t3 b; sys t4 l ] ->
          Reporting.running p = true
          /\ Reporting.at_pc p = Reporting.AtAccept
          /\ Reporting.server_fd p = s
          /\ Reporting.cout p = [ "Reporting Engine listening on port 8080" ]
          /\ Reporting.cerr p = []).
Proof.
  split.
  - intros t1 t2 s o es Hs Ho. analytics_step.
    replace (s =? 0)%Z with false by (symmetry; apply Z.eqb_neq; lia).
    analytics_step.
    replace (o =? 0)%Z with false by (symmetry; apply Z.eqb_neq; lia).
    cbn [negb].
    rewrite (analytics_exited_status _ es 1%Z) by reflexivity.
    rewrite (analytics_run_exited es _ 1%Z) by reflexivity.
    split; reflexivity.
  - intros t1 t2 t3 t4 s o b l Hs Hb Hl p ->.
    reporting_step.
    replace (s =? 0)%Z with false by (symmetry; apply Z.eqb_neq; lia).
    reporting_step. reporting_step.
    replace (b <? 0)%Z with false by (symmetry; apply Z.ltb_ge; lia).
    reporting_step.
    replace (l <? 0)%Z with false by (symmetry; apply Z.ltb_ge; lia).
    unfold Reporting.run. cbn [fold_left]. rewrite port_text_8080.
    repeat split.
Qed.

Lemma X12_setsockopt_result_witness :
  Analytics.exit_status
    (Analytics.run Analytics.start [ sys friday 3; sys friday (-1) ])
  = Some 1%Z
  /\ Reporting.at_pc
       (Reporting.run Reporting.start
          [ sys friday 3; sys friday (-1); sys friday 0; sys friday 0 ])
     = Reporting.AtAccept.
Proof.
  split.
  - apply (proj1 X12_setsockopt_result friday friday 3%Z (-1)%Z []); lia.
  - refine (proj1 (proj2 (proj2 X12_setsockopt_result
              friday friday friday friday 3%Z (-1)%Z 0%Z 0%Z _ _ _ _ eq_refl)));
      lia.
Defined.

(** X13.  The Reporting Engine does not see what follows a zero byte:
    two requests that were read whole and agree up to a zero byte get the
    same response. *)
Theorem X13_reporting_ignores_after_zero_byte :
  forall a b1 b2,
    String.length (a ++ String NUL b1) <= read_limit ->
    String.length (a ++ String NUL b2) <= read_limit ->
    reporting_reply (a ++ String NUL b1) = reporting_reply (a ++ String NUL b2)
    /\ reporting_reply (a ++ String NUL b1) = Reporting.respond (c_str a).
Proof.
  intros a b1 b2 H1 H2. unfold reporting_reply.
  rewrite !reporting_request_all by assumption.
  rewrite !c_str_stops_at_nul. split; reflexivity.
Qed.

Lemma X13_reporting_ignores_after_zero_byte_witness :
  reporting_reply ("POST /x" ++ String NUL "GET /health")
  = reporting_reply ("POST /x" ++ String NUL "GET /")
  /\ reporting_reply ("POST /x" ++ String NUL "GET /health")
     = Reporting.respond (c_str "POST /x").
Proof.
  apply (X13_reporting_ignores_after_zero_byte "POST /x" "GET /health" "GET /");
    vm_compute; lia.
Defined.

(** X14.  The accept loop of the Analytics Engine does not wait for its
    threads and has no limit: any number of successful [accept]s in a row
    leaves one waiting thread per connection, in order of arrival, and
    nothing sent, closed or printed. *)
Theorem X14_analytics_accepts_without_limit :
  forall t cs p,
    analytics_serving p -> Forall (fun c => (0 <= c)%Z) cs ->
    forall p',
      p' = Analytics.run p (map (accept_at t) cs) ->
      Analytics.threads p' = (Analytics.threads p ++ cs)%list
      /\ Analytics.sent p' = Analytics.sent p
      /\ Analytics.closed p' = Analytics.closed p
      /\ Analytics.cout p' = Analytics.cout p
      /\ Analytics.cerr p' = Analytics.cerr p
      /\ analytics_serving p'.
Proof. exact analytics_accepts. Qed.

Lemma X14_analytics_accepts_without_limit_witness :
  Analytics.threads
    (Analytics.run (Analytics.run Analytics.start (up friday))
       (map (accept_at friday) [ 4%Z; 5%Z; 6%Z ]))
  = [ 4%Z; 5%Z; 6%Z ].
Proof.
  refine (proj1 (X14_analytics_accepts_without_limit friday [ 4%Z; 5%Z; 6%Z ]
                   (Analytics.run Analytics.start (up friday))
                   (conj eq_refl eq_refl) _ _ eq_refl)).
  repeat constructor; lia.
Defined.
